(** * PASCAL VOC dataset adapter: a shallow embedding of
    [maskrcnn_benchmark/data/datasets/voc.py] and the properties of its
    annotation parser, index builder and sample accessor.

    Conventions of the embedding:
    - Python [str] values are byte strings ([string]); comparison is
      lexicographic on code units, which agrees with Python's code-point order
      on ASCII text (and on UTF-8 encoded text).
    - Python [int] is [Z].
    - Python exceptions are the constructors of [exn]; a computation that may
      raise has type [res A].
    - A Python [dict] whose iteration order is never observed on a reachable
      path is a [gmap].  *)

From stdpp Require Import base numbers option list strings gmap fin_maps sorting.
From Stdlib Require Import ZArith Lia Ascii.

Set Warnings "-register-all".

Open Scope Z_scope.

(** ** Exceptions and the error monad *)

Inductive exn : Type :=
  | KeyError
  | IndexError
  | ValueError
  | TypeError
  | AttributeError
  | RuntimeError
  | FileNotFoundError
  | XMLSyntaxError
  | TransformError.

Inductive res (A : Type) : Type :=
  | Ok (a : A)
  | Raise (e : exn).
Arguments Ok {A} a.
Arguments Raise {A} e.

Definition res_bind {A B} (f : A → res B) (r : res A) : res B :=
  match r with
  | Ok a => f a
  | Raise e => Raise e
  end.

#[global] Instance res_ret : MRet res := @Ok.
#[global] Instance res_mbind : MBind res := @res_bind.
#[global] Instance res_fmap : FMap res :=
  λ A B f r, match r with Ok a => Ok (f a) | Raise e => Raise e end.

#[global] Instance exn_eq_dec : EqDecision exn.
Proof. solve_decision. Defined.
#[global] Instance res_eq_dec `{EqDecision A} : EqDecision (res A).
Proof. solve_decision. Defined.

Definition is_Ok {A} (r : res A) : Prop := ∃ a, r = Ok a.
Definition is_Raise {A} (r : res A) : Prop := ∃ e, r = Raise e.

(** ** Python values produced by the XML parser *)

Inductive pyval : Type :=
  | PyNone
  | PyStr (s : string)
  | PyDict (d : gmap string pyval)
  | PyList (l : list pyval).

(** [d[k]] for a string key. Subscripting [None] or a list with a string, or a
    string with a string, is a [TypeError]. *)
Definition py_getitem (v : pyval) (k : string) : res pyval :=
  match v with
  | PyDict d =>
      match d !! k with
      | Some x => Ok x
      | None => Raise KeyError
      end
  | _ => Raise TypeError
  end.

(** [v.append]: looking up the bound method; only lists have it. The method,
    once called with [x], returns the list extended in place. *)
Definition py_append (v : pyval) : res (pyval → pyval) :=
  match v with
  | PyList l => Ok (λ x, PyList (l ++ [x]))
  | _ => Raise AttributeError
  end.

(** ** lxml element trees *)

(** An element has a tag, an optional text ([None] when the element has no
    text) and its child elements in document order. Attributes and tails,
    which the parser never reads, are left out, and so are comments and
    processing instructions. *)
Inductive xml : Type :=
  | Element (tag : string) (text : option string) (children : list xml).

Definition xml_tag (x : xml) : string :=
  match x with Element t _ _ => t end.
Definition xml_text (x : xml) : pyval :=
  match x with
  | Element _ (Some s) _ => PyStr s
  | Element _ None _ => PyNone
  end.
Definition xml_children (x : xml) : list xml :=
  match x with Element _ _ cs => cs end.

(** ** Loops *)

Section for_loop.
Context {A S : Type} (body : A → S → res S).

(** [for x in l: s = body(x, s)] *)
Fixpoint for_loop (l : list A) (s : S) : res S :=
  match l with
  | [] => Ok s
  | x :: l => s' ← body x s; for_loop l s'
  end.

End for_loop.

Section list_comp.
Context {A B : Type} (cond : A → res bool) (f : A → res B).

(** [[f(x) for x in l if cond(x)]]: the condition is evaluated before the
    element expression, element by element. *)
Fixpoint list_comp (l : list A) : res (list B) :=
  match l with
  | [] => Ok []
  | x :: l =>
      c ← cond x;
      if (c : bool) then y ← f x; ys ← list_comp l; Ok (y :: ys)
      else list_comp l
  end.

End list_comp.

(** ** [PascalVOC._recursive_parse_xml_to_dict] *)

(** One iteration of the loop over the children, given the child's tag and
    the dictionary returned by the recursive call. *)
Definition parse_child (child_tag : string) (child_result : pyval)
    (result : gmap string pyval) : res (gmap string pyval) :=
  if decide (child_tag ≠ "object") then
    v ← py_getitem child_result child_tag;
    Ok (<[child_tag := v]> result)
  else
    let result :=
      if decide (result !! child_tag = None)
      then <[child_tag := PyList []]> result else result in
    cur ← py_getitem (PyDict result) child_tag;
    append ← py_append cur;
    v ← py_getitem child_result child_tag;
    Ok (<[child_tag := append v]> result).

Fixpoint _recursive_parse_xml_to_dict (x : xml) : res pyval :=
  match x with
  | Element tag text children =>
      if decide (length children = 0%nat) then
        Ok (PyDict {[ tag := xml_text x ]})
      else
        result ← for_loop
          (λ child result,
             child_result ← _recursive_parse_xml_to_dict child;
             parse_child (xml_tag child) child_result result)
          children ∅;
        Ok (PyDict {[ tag := PyDict result ]})
  end.

(** [child_result[child.tag]]: the entry a child contributes to its parent. *)
Definition child_entry (child : xml) : res pyval :=
  child_result ← _recursive_parse_xml_to_dict child;
  py_getitem child_result (xml_tag child).

(** The same entry as a total function (see [child_entry_value_of]). *)
Definition value_of (child : xml) : pyval :=
  match child_entry child with
  | Ok v => v
  | Raise _ => PyNone
  end.

(** The body of the loop at lines 106-113. *)
Definition parse_loop_body (child : xml) (result : gmap string pyval)
    : res (gmap string pyval) :=
  child_result ← _recursive_parse_xml_to_dict child;
  parse_child (xml_tag child) child_result result.

Definition is_list (v : pyval) : Prop :=
  match v with PyList _ => True | _ => False end.

(** The children tagged [object], in document order, and the last child
    carrying a given tag. *)
Definition objects_of (children : list xml) : list xml :=
  filter (λ c, xml_tag c = "object") children.
Definition last_tagged (k : string) (children : list xml) : option xml :=
  last (filter (λ c, xml_tag c = k) children).

(** What the loop over [children] leaves in [result], starting from [{}]. *)
Definition parse_loop_post (children : list xml)
    (result : gmap string pyval) : Prop :=
  result !! "object" =
    match objects_of children with
    | [] => None
    | _ :: _ => Some (PyList (value_of <$> objects_of children))
    end
  ∧ ∀ k, k ≠ "object" → result !! k = value_of <$> last_tagged k children.


(** ** Strings: [str.strip], [readlines], [int] *)

(** [str.isspace] on the ASCII range: TAB, LF, VT, FF, CR, the four separator
    controls FS, GS, RS, US and the space. *)
Definition py_isspace (a : ascii) : bool :=
  let n := N_of_ascii a in
  ((9 <=? n)%N && (n <=? 13)%N) || ((28 <=? n)%N && (n <=? 32)%N).

Fixpoint lstrip (s : string) : string :=
  match s with
  | EmptyString => EmptyString
  | String a s' => if py_isspace a then lstrip s' else s
  end.

Definition rstrip (s : string) : string :=
  String.rev (lstrip (String.rev s)).

Definition strip (s : string) : string := rstrip (lstrip s).

(** Text-mode [open] translates the line ends CR LF and CR to LF. *)
Fixpoint universal_newlines (s : string) : string :=
  match s with
  | EmptyString => EmptyString
  | String a s' =>
      if Ascii.eqb a "013"%char then
        match s' with
        | String b s'' =>
            if Ascii.eqb b "010"%char then String "010"%char (universal_newlines s'')
            else String "010"%char (universal_newlines s')
        | EmptyString => String "010"%char EmptyString
        end
      else String a (universal_newlines s')
  end.

(** Splitting after every LF; each line keeps its line end, and a last line
    without one is kept too. [cur] is the current line, reversed. *)
Fixpoint split_lines (cur : string) (s : string) : list string :=
  match s with
  | EmptyString =>
      match cur with
      | EmptyString => []
      | _ => [String.rev cur]
      end
  | String a s' =>
      if Ascii.eqb a "010"%char then String.rev (String a cur) :: split_lines "" s'
      else split_lines (String a cur) s'
  end.

(** [fid.readlines()] on a file opened in text mode. *)
Definition readlines (content : string) : list string :=
  split_lines "" (universal_newlines content).

(** [sorted] on a list of strings. The order on strings is total and
    antisymmetric, so the sorted list is determined by the input
    (see [sorted_unique]). *)
Definition sorted (l : list string) : list string := merge_sort String.le l.

Definition digit_val (a : ascii) : option Z :=
  let n := N_of_ascii a in
  if ((48 <=? n)%N && (n <=? 57)%N) then Some (Z.of_N n - 48) else None.

(** Decimal digits, with single underscores allowed between digits. *)
Fixpoint parse_digits (acc : Z) (after_digit : bool) (s : string) : option Z :=
  match s with
  | EmptyString => if after_digit then Some acc else None
  | String a s' =>
      match digit_val a with
      | Some d => parse_digits (10 * acc + d) true s'
      | None =>
          if Ascii.eqb a "_"%char && after_digit then parse_digits acc false s'
          else None
      end
  end.

(** [int(s)] for a string: surrounding whitespace, an optional sign, decimal
    digits. *)
Definition int_of_string (s : string) : option Z :=
  match strip s with
  | String "+"%char r => parse_digits 0 false r
  | String "-"%char r => Z.opp <$> parse_digits 0 false r
  | r => parse_digits 0 false r
  end.

(** [int(v)]: a [ValueError] for text that is not an integer literal, a
    [TypeError] for [None], dictionaries and lists. *)
Definition py_int (v : pyval) : res Z :=
  match v with
  | PyStr s =>
      match int_of_string s with
      | Some z => Ok z
      | None => Raise ValueError
      end
  | _ => Raise TypeError
  end.

Fixpoint string_chars (s : string) : list pyval :=
  match s with
  | EmptyString => []
  | String a s' => PyStr (String a EmptyString) :: string_chars s'
  end.

(** [for obj in v]: a list yields its elements, a string its characters, a
    dictionary its keys (in the order of [map_to_list]: the insertion order of
    a Python dictionary is not modelled; the parser only ever stores a list
    under [object]). *)
Definition py_iter (v : pyval) : res (list pyval) :=
  match v with
  | PyList l => Ok l
  | PyStr s => Ok (string_chars s)
  | PyDict d => Ok (PyStr <$> (map_to_list d).*1)
  | PyNone => Raise TypeError
  end.

(** ** The label vocabulary *)

Definition VOC_BBOX_LABEL_NAMES : list string :=
  [ "aeroplane"; "bicycle"; "bird"; "boat"; "bottle"; "bus"; "car"; "cat";
    "chair"; "cow"; "diningtable"; "dog"; "horse"; "motorbike"; "person";
    "pottedplant"; "sheep"; "sofa"; "train"; "tvmonitor" ].

Definition py_eq_str (v : pyval) (s : string) : bool :=
  match v with
  | PyStr t => bool_decide (t = s)
  | _ => false
  end.

(** [names.index(v)] searching from position [i] on: the first position whose
    entry equals [v], a [ValueError] when there is none. *)
Fixpoint tuple_index_from (i : Z) (names : list string) (v : pyval) : res Z :=
  match names with
  | [] => Raise ValueError
  | n :: names =>
      if py_eq_str v n then Ok i else tuple_index_from (i + 1) names v
  end.

Definition tuple_index (names : list string) (v : pyval) : res Z :=
  tuple_index_from 0 names v.

(** ** Dictionaries built by comprehensions *)

(** [{k: v for k, v in items}]: a later item overwrites an earlier one with
    the same key. *)
Definition dict_of_items `{Countable K} {V} (items : list (K * V)) : gmap K V :=
  foldl (λ d kv, <[kv.1 := kv.2]> d) ∅ items.

(** [enumerate(l)] and [range(n)]. *)
Definition enumerate {A} (l : list A) : list (Z * A) :=
  imap (λ i x, (Z.of_nat i, x)) l.
Definition range (n : Z) : list Z := seqZ 0 n.

(** [l[index]] on a list: a negative index counts from the end. *)
Definition py_list_getitem {A} (l : list A) (index : Z) : res A :=
  let n := Z.of_nat (length l) in
  let i := if decide (index < 0) then index + n else index in
  if decide (0 ≤ i < n) then
    match l !! Z.to_nat i with
    | Some x => Ok x
    | None => Raise IndexError
    end
  else Raise IndexError.

(** [d[k]] on a dictionary held as a map. *)
Definition dict_getitem `{Countable K} {V} (d : gmap K V) (k : K) : res V :=
  match d !! k with
  | Some v => Ok v
  | None => Raise KeyError
  end.

(** ** The annotation index builder ([PascalVOC.__init__]) *)

(** An annotation record: the dictionary with keys [boxes], [labels] and
    [size] stored in [self.anns]. *)
Record annotation : Type := {
  ann_boxes : list (list Z);
  ann_labels : list Z;
  ann_size : pyval
}.

(** [int(obj['difficult'])] *)
Definition difficult_flag (obj : pyval) : res Z :=
  d ← py_getitem obj "difficult";
  py_int d.

(** [int(obj['difficult']) == 0] *)
Definition not_difficult (obj : pyval) : res bool :=
  n ← difficult_flag obj;
  Ok (bool_decide (n = 0)).

(** [int(obj['bndbox'][field])] *)
Definition bndbox_field (obj : pyval) (field : string) : res Z :=
  bndbox ← py_getitem obj "bndbox";
  v ← py_getitem bndbox field;
  py_int v.

(** The four-element list of lines 56-59. *)
Definition box_of (obj : pyval) : res (list Z) :=
  xmin ← bndbox_field obj "xmin";
  ymin ← bndbox_field obj "ymin";
  xmax ← bndbox_field obj "xmax";
  ymax ← bndbox_field obj "ymax";
  Ok [xmin; ymin; xmax; ymax].

(** [VOC_BBOX_LABEL_NAMES.index(obj['name'])] *)
Definition label_of (obj : pyval) : res Z :=
  name ← py_getitem obj "name";
  tuple_index VOC_BBOX_LABEL_NAMES name.

(** The iterable of both comprehensions: [data['object']]. *)
Definition data_objects (data : pyval) : res (list pyval) :=
  objects ← py_getitem data "object";
  py_iter objects.

(** Lines 55-62, for the dictionary [data] of one annotation file. *)
Definition make_annotation (data : pyval) : res annotation :=
  objs ← data_objects data;
  boxes ← list_comp not_difficult box_of objs;
  objs ← data_objects data;
  labels ← list_comp not_difficult label_of objs;
  size ← py_getitem data "size";
  Ok {| ann_boxes := boxes; ann_labels := labels; ann_size := size |}.

(** Lines 53-54 and 55-62: from the parsed tree of one file to its record. *)
Definition annotation_of_xml (xml : xml) : res annotation :=
  parsed ← _recursive_parse_xml_to_dict xml;
  data ← py_getitem parsed "annotation";
  make_annotation data.

(** A decoded RGB image: its size as (width, height); pixels are not
    modelled. *)
Record image : Type := {
  image_size : Z * Z
}.

(** The files under the data directory, as the dataset sees them: the text of
    the split manifest, the tree [etree.fromstring] returns for the
    annotation file of an identifier, and the image [Image.open(..)
    .convert('RGB')] returns for its JPEG file. Each may raise instead
    (a missing file, XML that does not parse). *)
Record voc_files : Type := {
  split_file : res string;
  annotation_file : string → res xml;
  image_file : string → res image
}.

(** ** Tensors and the target structure *)

(** A tensor of integers: its shape and its elements in row-major order. *)
Record tensor : Type := {
  shape : list Z;
  elements : list Z
}.

(** The integers a tensor of Python integers can hold: those of 64 bits. *)
Definition in_int64 (z : Z) : bool :=
  (- 2 ^ 63 <=? z) && (z <? 2 ^ 63).

(** Storing the rows of a nested list, row by row: a row whose length is not
    [width] is a [ValueError], an integer that does not fit 64 bits a
    [RuntimeError] (overflow). *)
Fixpoint store_rows (width : nat) (boxes : list (list Z)) : res (list Z) :=
  match boxes with
  | [] => Ok []
  | row :: boxes =>
      if negb (Nat.eqb (length row) width) then Raise ValueError
      else if negb (forallb in_int64 row) then Raise RuntimeError
      else stored ← store_rows width boxes; Ok (row ++ stored)
  end.

(** [torch.as_tensor(boxes)] for a list of lists of integers: the rows must
    have one length and every integer must fit 64 bits; the empty list gives
    a one-dimensional empty tensor. *)
Definition as_tensor (boxes : list (list Z)) : res tensor :=
  match boxes with
  | [] => Ok {| shape := [0]; elements := [] |}
  | row :: _ =>
      stored ← store_rows (length row) boxes;
      Ok {| shape := [Z.of_nat (length boxes); Z.of_nat (length row)];
            elements := stored |}
  end.

(** [t.reshape(-1, 4)]: the number of elements must be a multiple of 4. *)
Definition reshape_rows_of_4 (t : tensor) : res tensor :=
  let numel := Z.of_nat (length (elements t)) in
  if decide (numel mod 4 = 0) then
    Ok {| shape := [numel / 4; 4]; elements := elements t |}
  else Raise RuntimeError.

(** The one-dimensional tensor holding the integers of [l]. *)
Definition tensor_of_list (l : list Z) : tensor :=
  {| shape := [Z.of_nat (length l)]; elements := l |}.

(** [torch.tensor(classes)] for a list of integers: every integer must fit
    64 bits. *)
Definition torch_tensor (l : list Z) : res tensor :=
  if forallb in_int64 l then Ok (tensor_of_list l) else Raise RuntimeError.

(** The rows of a tensor of width 4. *)
Fixpoint rows_of_4 (l : list Z) : list (Z * Z * Z * Z) :=
  match l with
  | a :: b :: c :: d :: l => (a, b, c, d) :: rows_of_4 l
  | _ => []
  end.

(** Modelled from the spec: the target structure [BoxList] of
    [maskrcnn_benchmark.structures.bounding_box], which this file imports and
    whose source is not part of it. Following section 4.2, it holds the
    boxes, the image size and a coordinate mode, carries named auxiliary
    fields, converts between modes and clips to the image bounds. *)
Record BoxList : Type := {
  bbox : tensor;
  size : Z * Z;
  mode : string;
  extra_fields : gmap string tensor
}.

(** Modelled from the spec: constructing a [BoxList]; the boxes must form a
    two-dimensional structure of width 4 (zero rows included) and the mode
    must be one of the two coordinate modes. *)
Definition BoxList_new (bbox : tensor) (image_size : Z * Z) (mode : string)
    : res BoxList :=
  match shape bbox with
  | [_; 4] =>
      if bool_decide (mode = "xyxy") || bool_decide (mode = "xywh") then
        Ok {| bbox := bbox; size := image_size; mode := mode;
              extra_fields := ∅ |}
      else Raise ValueError
  | _ => Raise ValueError
  end.

(** Modelled from the spec: coordinate-mode conversion. Converting to the mode
    the structure already has returns it unchanged, which is the only
    conversion this file asks for; corner and width/height coordinates
    convert into each other row by row. *)
Definition BoxList_convert (b : BoxList) (new_mode : string) : res BoxList :=
  if negb (bool_decide (new_mode = "xyxy") || bool_decide (new_mode = "xywh"))
  then Raise ValueError
  else if bool_decide (new_mode = mode b) then Ok b
  else
    let convert_row '(a, b, c, d) :=
      if bool_decide (new_mode = "xywh") then [a; b; c - a + 1; d - b + 1]
      else [a; b; a + c - 1; b + d - 1] in
    Ok {| bbox := {| shape := shape (bbox b);
                     elements := concat (convert_row <$> rows_of_4 (elements (bbox b))) |};
          size := size b; mode := new_mode; extra_fields := extra_fields b |}.

(** Modelled from the spec: attaching a named auxiliary field. *)
Definition add_field (b : BoxList) (field : string) (field_data : tensor)
    : BoxList :=
  {| bbox := bbox b; size := size b; mode := mode b;
     extra_fields := <[field := field_data]> (extra_fields b) |}.

Definition clamp (lo hi x : Z) : Z := Z.min (Z.max x lo) hi.

(** Clipping one corner-coordinate row to an image of the given size. *)
Definition clip_row (image_size : Z * Z) (row : Z * Z * Z * Z)
    : Z * Z * Z * Z :=
  let '(w, h) := image_size in
  let '(x1, y1, x2, y2) := row in
  (clamp 0 (w - 1) x1, clamp 0 (h - 1) y1,
   clamp 0 (w - 1) x2, clamp 0 (h - 1) y2).

(** A row is kept when it is not empty. *)
Definition row_nonempty (row : Z * Z * Z * Z) : bool :=
  let '(x1, y1, x2, y2) := row in
  bool_decide (x1 < x2) && bool_decide (y1 < y2).

(** Selecting the entries of [l] at the positions where [keep] holds. *)
Fixpoint mask_select {A} (keep : list bool) (l : list A) : list A :=
  match keep, l with
  | k :: keep, x :: l => if k then x :: mask_select keep l else mask_select keep l
  | _, _ => []
  end.

Definition row_elements (row : Z * Z * Z * Z) : list Z :=
  let '(x1, y1, x2, y2) := row in [x1; y1; x2; y2].

(** Modelled from the spec: clipping to the image bounds; with
    [remove_empty] the boxes that became empty are dropped, together with
    the entries of every auxiliary field at the same positions. *)
Definition clip_to_image (b : BoxList) (remove_empty : bool) : BoxList :=
  let rows := clip_row (size b) <$> rows_of_4 (elements (bbox b)) in
  if remove_empty then
    let keep := row_nonempty <$> rows in
    let kept := mask_select keep rows in
    {| bbox := {| shape := [Z.of_nat (length kept); 4];
                  elements := concat (row_elements <$> kept) |};
       size := size b; mode := mode b;
       extra_fields :=
         (λ t, tensor_of_list (mask_select keep (elements t)))
           <$> extra_fields b |}
  else
    {| bbox := {| shape := shape (bbox b);
                  elements := concat (row_elements <$> rows) |};
       size := size b; mode := mode b; extra_fields := extra_fields b |}.

Arguments clip_to_image : simpl never.

(** ** The dataset object *)

(** The optional transform pipeline: a callable on (image, target) pairs. *)
Definition transform : Type := image → BoxList → res (image * BoxList).

Record PascalVOC : Type := {
  ids : list string;
  json_category_id_to_contiguous_id : gmap Z Z;
  contiguous_category_id_to_json_id : gmap Z Z;
  anns : gmap string annotation;
  id_to_img_map : gmap Z string;
  transforms : option transform
}.

(** Lines 43-45. *)
Definition make_json_category_id_to_contiguous_id : gmap Z Z :=
  dict_of_items ((λ '(i, v), (v, i + 1)) <$> enumerate (range 20)).

(** Lines 46-48: the items of the first mapping, swapped. *)
Definition make_contiguous_category_id_to_json_id (d : gmap Z Z) : gmap Z Z :=
  dict_of_items ((λ '(k, v), (v, k)) <$> map_to_list d).

(** The body of the loop at lines 50-62. *)
Definition load_annotation (fs : voc_files) (img_id : string)
    (anns : gmap string annotation) : res (gmap string annotation) :=
  xml ← annotation_file fs img_id;
  ann ← annotation_of_xml xml;
  Ok (<[img_id := ann]> anns).

(** Line 41. *)
Definition manifest_ids (content : string) : list string :=
  sorted (strip <$> readlines content).

Definition __init__ (fs : voc_files) (transforms : option transform)
    : res PascalVOC :=
  content ← split_file fs;
  let ids := manifest_ids content in
  let json_to_contiguous := make_json_category_id_to_contiguous_id in
  let contiguous_to_json :=
    make_contiguous_category_id_to_json_id json_to_contiguous in
  anns ← for_loop (load_annotation fs) ids ∅;
  Ok {| ids := ids;
        json_category_id_to_contiguous_id := json_to_contiguous;
        contiguous_category_id_to_json_id := contiguous_to_json;
        anns := anns;
        id_to_img_map := dict_of_items (enumerate ids);
        transforms := transforms |}.

(** [__len__] *)
Definition __len__ (ds : PascalVOC) : Z := Z.of_nat (length (ids ds)).

(** ** The sample accessor ([PascalVOC.__getitem__]) *)

(** Lines 77-81: the target before clipping, with its [labels] field. *)
Definition make_target (ds : PascalVOC) (img : image) (ann : annotation)
    : res BoxList :=
  let boxes := ann_boxes ann in
  let labels := ann_labels ann in
  boxes ← as_tensor boxes;
  boxes ← reshape_rows_of_4 boxes;
  target ← BoxList_new boxes (image_size img) "xyxy";
  target ← BoxList_convert target "xyxy";
  classes ← mapM (dict_getitem (json_category_id_to_contiguous_id ds)) labels;
  classes ← torch_tensor classes;
  Ok (add_field target "labels" classes).

(** Lines 84-87. *)
Definition apply_transforms (ds : PascalVOC) (img : image) (target : BoxList)
    (index : Z) : res (image * BoxList * Z) :=
  match transforms ds with
  | Some t => '(img, target) ← t img target; Ok (img, target, index)
  | None => Ok (img, target, index)
  end.

(** Lines 74-87, once the image and the record are at hand. *)
Definition getitem_body (ds : PascalVOC) (img : image) (ann : annotation)
    (index : Z) : res (image * BoxList * Z) :=
  target ← make_target ds img ann;
  let target := clip_to_image target true in
  apply_transforms ds img target index.

Definition __getitem__ (ds : PascalVOC) (fs : voc_files) (index : Z)
    : res (image * BoxList * Z) :=
  img_id ← py_list_getitem (ids ds) index;
  img ← image_file fs img_id;
  ann ← dict_getitem (anns ds) img_id;
  getitem_body ds img ann index.

(** [PascalVOC.get_img_info]; it takes no files: only the dataset object is
    read. *)
Definition get_img_info (ds : PascalVOC) (index : Z) : res pyval :=
  img_id ← py_list_getitem (ids ds) index;
  ann ← dict_getitem (anns ds) img_id;
  Ok (ann_size ann).

(** Replacing the index a sample is returned with. *)
Definition with_index (index : Z) (sample : image * BoxList * Z)
    : image * BoxList * Z :=
  let '(img, target, _) := sample in (img, target, index).

(** ** A small data directory, used to exercise the definitions *)

Definition leaf (tag text : string) : xml := Element tag (Some text) [].

Definition size_xml (w h : string) : xml :=
  Element "size" None [leaf "width" w; leaf "height" h; leaf "depth" "3"].

Definition object_xml (name difficult xmin ymin xmax ymax : string) : xml :=
  Element "object" None
    [ leaf "name" name;
      leaf "pose" "Unspecified";
      leaf "difficult" difficult;
      Element "bndbox" None
        [leaf "xmin" xmin; leaf "ymin" ymin; leaf "xmax" xmax;
         leaf "ymax" ymax] ].

Definition newline : string := String "010"%char EmptyString.

(** Sample [0001]: one car and one difficult dog. Sample [0002]: a single
    difficult object. Sample [0003]: no [object] entry at all. Sample
    [0004]: an object of an unknown class. *)
Definition annotation_0001 : xml :=
  Element "annotation" None
    [ leaf "filename" "0001.jpg";
      size_xml "100" "100";
      object_xml "car" "0" "10" "20" "30" "40";
      object_xml "dog" "1" "5" "5" "50" "50" ].

Definition annotation_0002 : xml :=
  Element "annotation" None
    [ leaf "filename" "0002.jpg";
      size_xml "64" "48";
      object_xml "person" "1" "1" "2" "3" "4" ].

Definition annotation_0003 : xml :=
  Element "annotation" None
    [ leaf "filename" "0003.jpg"; size_xml "100" "100" ].

Definition annotation_0004 : xml :=
  Element "annotation" None
    [ leaf "filename" "0004.jpg";
      size_xml "100" "100";
      object_xml "unicorn" "0" "10" "20" "30" "40" ].

Definition example_annotation_file (img_id : string) : res xml :=
  if bool_decide (img_id = "0001") then Ok annotation_0001
  else if bool_decide (img_id = "0002") then Ok annotation_0002
  else if bool_decide (img_id = "0003") then Ok annotation_0003
  else if bool_decide (img_id = "0004") then Ok annotation_0004
  else Raise FileNotFoundError.

Definition example_image_file (img_id : string) : res image :=
  if bool_decide (img_id = "0001") then Ok {| image_size := (100, 100) |}
  else if bool_decide (img_id = "0002") then Ok {| image_size := (64, 48) |}
  else if bool_decide (img_id = "0003") then Ok {| image_size := (100, 100) |}
  else if bool_decide (img_id = "0004") then Ok {| image_size := (100, 100) |}
  else Raise FileNotFoundError.

Definition example_files (manifest : string) : voc_files :=
  {| split_file := Ok manifest;
     annotation_file := example_annotation_file;
     image_file := example_image_file |}.

(** A split with the two samples [0002] and [0001], in this order. *)
Definition trainval_files : voc_files :=
  example_files ("0002" +:+ newline +:+ "0001" +:+ newline).

(** A split whose only sample has no [object] entry. *)
Definition no_object_files : voc_files :=
  example_files ("0003" +:+ newline).

(** A split containing the sample with the unknown class. *)
Definition unknown_class_files : voc_files :=
  example_files ("0001" +:+ newline +:+ "0004" +:+ newline).

(** The dataset constructed from [trainval_files], without transforms. *)
Definition trainval_dataset : PascalVOC :=
  match __init__ trainval_files None with
  | Ok ds => ds
  | Raise _ =>
      {| ids := []; json_category_id_to_contiguous_id := ∅;
         contiguous_category_id_to_json_id := ∅; anns := ∅;
         id_to_img_map := ∅; transforms := None |}
  end.

(** ** More sample data *)

(** An object entry that has only a [name] and a [difficult] flag. *)
Definition bare_object_xml (name difficult : string) : xml :=
  Element "object" None [leaf "name" name; leaf "difficult" difficult].

(** Sample [0005]: a car, and a difficult entry of an unknown class without
    a [bndbox]. Sample [0006]: the car alone. Sample [0007]: an entry whose
    [difficult] text is not an integer. *)
Definition annotation_0005 : xml :=
  Element "annotation" None
    [ size_xml "100" "100";
      object_xml "car" "0" "10" "20" "30" "40";
      bare_object_xml "unicorn" "1" ].

Definition annotation_0006 : xml :=
  Element "annotation" None
    [ size_xml "100" "100"; object_xml "car" "0" "10" "20" "30" "40" ].

Definition annotation_0007 : xml :=
  Element "annotation" None
    [ size_xml "100" "100"; bare_object_xml "car" "no" ].

Definition more_annotation_file (img_id : string) : res xml :=
  if bool_decide (img_id = "0005") then Ok annotation_0005
  else if bool_decide (img_id = "0006") then Ok annotation_0006
  else if bool_decide (img_id = "0007") then Ok annotation_0007
  else Raise FileNotFoundError.

(** A data directory without any image, for the given manifest. *)
Definition more_files (manifest : string) : voc_files :=
  {| split_file := Ok manifest;
     annotation_file := more_annotation_file;
     image_file := λ _, Raise FileNotFoundError |}.

(** ** Whitespace at the ends of a string *)

(** A string made of whitespace only (the empty string included). *)
Fixpoint is_blank (s : string) : bool :=
  match s with
  | EmptyString => true
  | String a s' => py_isspace a && is_blank s'
  end.

Definition starts_with_space (s : string) : bool :=
  match s with
  | EmptyString => false
  | String a _ => py_isspace a
  end.

Definition ends_with_space (s : string) : bool :=
  starts_with_space (String.rev s).

(** The characters of a string, and [lstrip] on them. *)
Definition chars_of (s : string) : list ascii := String.list_ascii_of_string s.

Fixpoint lstrip_chars (l : list ascii) : list ascii :=
  match l with
  | [] => []
  | a :: l' => if py_isspace a then lstrip_chars l' else l
  end.

Definition head_is_space (l : list ascii) : bool :=
  match l with
  | [] => false
  | a :: _ => py_isspace a
  end.

(** Whether every coordinate of a list of boxes fits 64 bits. *)
Definition boxes_fit_int64 (boxes : list (list Z)) : bool :=
  forallb (forallb in_int64) boxes.

(** The target the accessor builds for a record whose boxes fit: lines
    77-81, before clipping. *)
Definition target_of_record (img : image) (ann : annotation) : BoxList :=
  add_field
    {| bbox := {| shape := [Z.of_nat (length (ann_boxes ann)); 4];
                  elements := concat (ann_boxes ann) |};
       size := image_size img;
       mode := "xyxy";
       extra_fields := ∅ |}
    "labels" (tensor_of_list ((λ c, c + 1) <$> ann_labels ann)).

(** Sample [0008]: a car whose [xmax] is 2^63. *)
Definition annotation_0008 : xml :=
  Element "annotation" None
    [ size_xml "100" "100";
      object_xml "car" "0" "10" "20" "9223372036854775808" "40" ].

Definition overflow_files : voc_files :=
  {| split_file := Ok "0008";
     annotation_file := λ img_id,
       if bool_decide (img_id = "0008") then Ok annotation_0008
       else Raise FileNotFoundError;
     image_file := λ _, Ok {| image_size := (100, 100) |} |}.
(** ** Facts about the parser *)

Lemma xml_nested_ind (P : xml → Prop) :
  (∀ tag text children, Forall P children → P (Element tag text children)) →
  ∀ x, P x.
Proof.
  intros Hnode. fix IH 1. intros [tag text children]. apply Hnode.
  induction children as [|c cs IHcs]; constructor; [apply IH | exact IHcs].
Qed.

Lemma res_bind_Ok {A B} (f : A → res B) (r : res A) (b : B) :
  r ≫= f = Ok b ↔ ∃ a, r = Ok a ∧ f a = Ok b.
Proof.
  destruct r as [a|e]; simpl.
  - split; [eauto | by intros (? & [= <-] & ?)].
  - split; [done | by intros (? & ? & ?)].
Qed.

Lemma for_loop_snoc {A S} (body : A → S → res S) (l : list A) (x : A) (s : S) :
  for_loop body (l ++ [x]) s = for_loop body l s ≫= body x.
Proof.
  revert s. induction l as [|y l IH]; intros s; simpl.
  - by destruct (body x s).
  - destruct (body y s) as [s'|e]; simpl; [apply IH | done].
Qed.

Lemma parse_unfold tag text children :
  _recursive_parse_xml_to_dict (Element tag text children) =
    if decide (length children = 0%nat) then
      Ok (PyDict {[ tag := xml_text (Element tag text children) ]})
    else
      result ← for_loop parse_loop_body children ∅;
      Ok (PyDict {[ tag := PyDict result ]}).
Proof. reflexivity. Qed.

(** Whenever the parser returns, it returns a one-key dictionary keyed by the
    element's own tag. *)
Lemma parse_shape (x : xml) (r : pyval) :
  _recursive_parse_xml_to_dict x = Ok r →
  ∃ v, r = PyDict {[ xml_tag x := v ]}.
Proof.
  destruct x as [tag text children]. rewrite parse_unfold.
  case_decide.
  - intros [= <-]. eauto.
  - intros (result & _ & [= <-])%res_bind_Ok. eauto.
Qed.

Lemma child_entry_Ok_of_parse (x : xml) :
  is_Ok (_recursive_parse_xml_to_dict x) → is_Ok (child_entry x).
Proof.
  intros [r Hr]. destruct (parse_shape _ _ Hr) as [v ->].
  exists v. unfold child_entry. rewrite Hr. simpl.
  by rewrite lookup_singleton_eq.
Qed.

Lemma value_of_entry (x : xml) :
  is_Ok (child_entry x) → child_entry x = Ok (value_of x).
Proof. intros [v Hv]. unfold value_of. by rewrite Hv. Qed.

Lemma parse_loop_body_Ok (child : xml) (result : gmap string pyval) :
  is_Ok (_recursive_parse_xml_to_dict child) →
  parse_loop_body child result =
    if decide (xml_tag child ≠ "object") then
      Ok (<[xml_tag child := value_of child]> result)
    else
      match result !! "object" with
      | None => Ok (<["object" := PyList [value_of child]]> result)
      | Some (PyList l) =>
          Ok (<["object" := PyList (l ++ [value_of child])]> result)
      | Some _ => Raise AttributeError
      end.
Proof.
  intros Hok.
  pose proof (value_of_entry _ (child_entry_Ok_of_parse _ Hok)) as Hentry.
  destruct Hok as [r Hr]. unfold child_entry in Hentry.
  unfold parse_loop_body. rewrite Hr in Hentry |- *. simpl in *.
  unfold parse_child. case_decide as Htag.
  - by rewrite Hentry.
  - rewrite Htag in *.
    case_decide as Hin.
    + rewrite Hin. simpl. rewrite lookup_insert_eq. simpl.
      rewrite Hentry. simpl. by rewrite insert_insert_eq.
    + destruct (result !! "object") as [[| | |l]|] eqn:Hcur; try done; simpl;
        rewrite Hcur; simpl; try done.
      by rewrite Hentry.
Qed.

Lemma parse_loop_spec (children : list xml) :
  Forall (λ c, is_Ok (_recursive_parse_xml_to_dict c)) children →
  ∃ result, for_loop parse_loop_body children ∅ = Ok result
            ∧ parse_loop_post children result.
Proof.
  induction children as [|c children IH] using rev_ind; intros Hall.
  - exists ∅. split; [done|]. split; [done|]. intros k _.
    by rewrite lookup_empty.
  - apply Forall_app in Hall as [Hall Hc]. rewrite Forall_singleton in Hc.
    destruct (IH Hall) as (result & Hloop & Hobj & Hother).
    rewrite for_loop_snoc, Hloop. simpl.
    rewrite (parse_loop_body_Ok _ _ Hc).
    unfold parse_loop_post, objects_of, last_tagged.
    case_decide as Htag.
    + eexists. split; [done|]. split.
      * rewrite lookup_insert_ne by done.
        rewrite filter_app, filter_cons_False, filter_nil, app_nil_r by done.
        exact Hobj.
      * intros k Hk. rewrite filter_app.
        destruct (decide (xml_tag c = k)) as [<-|Hne].
        -- rewrite lookup_insert_eq, filter_cons_True, filter_nil by done.
           by rewrite last_snoc.
        -- rewrite lookup_insert_ne, filter_cons_False, filter_nil, app_nil_r
             by done.
           by apply Hother.
    + assert (Hsnoc : filter (λ c, xml_tag c = "object") (children ++ [c])
                      = objects_of children ++ [c]).
      { by rewrite filter_app, filter_cons_True, filter_nil. }
      assert (Hrest : ∀ m : gmap string pyval, ∀ v k, k ≠ "object" →
                <["object" := v]> m !! k = m !! k).
      { intros m v k Hk. by rewrite lookup_insert_ne. }
      rewrite Hobj. destruct (objects_of children) as [|o objs] eqn:Hobjs.
      * eexists. split; [done|]. split.
        -- rewrite lookup_insert_eq, Hsnoc. done.
        -- intros k Hk. rewrite Hrest, filter_app, filter_cons_False,
             filter_nil, app_nil_r by congruence.
           by apply Hother.
      * eexists. split; [done|]. split.
        -- rewrite lookup_insert_eq, Hsnoc. simpl. by rewrite fmap_app.
        -- intros k Hk. rewrite Hrest, filter_app, filter_cons_False,
             filter_nil, app_nil_r by congruence.
           by apply Hother.
Qed.

(** The parser never raises. *)
Lemma parse_total (x : xml) : is_Ok (_recursive_parse_xml_to_dict x).
Proof.
  induction x as [tag text children IH] using xml_nested_ind.
  rewrite parse_unfold. case_decide; [by eexists|].
  destruct (parse_loop_spec children IH) as (result & -> & _). by eexists.
Qed.

Lemma child_entry_value_of (x : xml) : child_entry x = Ok (value_of x).
Proof. apply value_of_entry, child_entry_Ok_of_parse, parse_total. Qed.

(** The result for an element that has children. *)
Lemma parse_node (tag : string) (text : option string) (children : list xml) :
  children ≠ [] →
  ∃ result,
    _recursive_parse_xml_to_dict (Element tag text children)
      = Ok (PyDict {[ tag := PyDict result ]})
    ∧ parse_loop_post children result.
Proof.
  intros Hne. rewrite parse_unfold. case_decide as Hlen.
  { by destruct children. }
  destruct (parse_loop_spec children) as (result & -> & Hpost).
  { apply Forall_forall. intros c _. apply parse_total. }
  by exists result.
Qed.

(** An entry contributed by a child is text, [None] or a dictionary, never a
    list. *)
Lemma value_of_not_list (x : xml) : ¬ is_list (value_of x).
Proof.
  pose proof (child_entry_value_of x) as He. unfold child_entry in He.
  destruct x as [tag text children]. rewrite parse_unfold in He.
  case_decide.
  - simpl in He. rewrite lookup_singleton_eq in He.
    injection He as <-. destruct text; simpl; tauto.
  - destruct (for_loop parse_loop_body children ∅) as [result|e]; [|done].
    simpl in He. rewrite lookup_singleton_eq in He. injection He as <-.
    simpl; tauto.
Qed.

Lemma parse_value_of (x : xml) :
  _recursive_parse_xml_to_dict x = Ok (PyDict {[ xml_tag x := value_of x ]}).
Proof.
  destruct (parse_total x) as [r Hr].
  destruct (parse_shape _ _ Hr) as [v ->].
  pose proof (child_entry_value_of x) as He. unfold child_entry in He.
  rewrite Hr in He. simpl in He. rewrite lookup_singleton_eq in He.
  injection He as <-. exact Hr.
Qed.

(** C1: when an element has two or more children tagged [object], the parser
    returns a one-key dictionary whose inner dictionary holds, under
    [object], the list of the entries of all these children, one per child
    and in document order (each entry being what the recursive call returned
    under the child's tag); every other key [k] holds the entry of a child
    tagged [k] itself, not a list. *)
Theorem C1_object_siblings_accumulate
    (tag : string) (text : option string) (children : list xml) :
  (2 ≤ length (objects_of children))%nat →
  ∃ result,
    _recursive_parse_xml_to_dict (Element tag text children)
      = Ok (PyDict {[ tag := PyDict result ]})
    ∧ result !! "object" = Some (PyList (value_of <$> objects_of children))
    ∧ length (value_of <$> objects_of children)
      = length (objects_of children)
    ∧ Forall (λ c, _recursive_parse_xml_to_dict c
                   = Ok (PyDict {[ xml_tag c := value_of c ]})) children
    ∧ ∀ k, k ≠ "object" →
        result !! k = value_of <$> last_tagged k children
        ∧ ∀ v, result !! k = Some v → ¬ is_list v.
Proof.
  intros Htwo.
  assert (Hne : children ≠ []) by (intros ->; simpl in Htwo; lia).
  destruct (parse_node tag text children Hne) as (result & Hparse & Hobj & Hk).
  exists result. split; [exact Hparse|].
  split.
  { rewrite Hobj. destruct (objects_of children); [simpl in Htwo; lia | done]. }
  split; [apply length_fmap|].
  split; [apply Forall_forall; intros c _; apply parse_value_of|].
  intros k Hkne. split; [by apply Hk|].
  intros v. rewrite (Hk k Hkne).
  destruct (last_tagged k children) as [c|]; simpl; [|done].
  intros [= <-]. apply value_of_not_list.
Qed.

Lemma C1_object_siblings_accumulate_witness :
  ∃ result,
    _recursive_parse_xml_to_dict annotation_0001
      = Ok (PyDict {[ "annotation" := PyDict result ]})
    ∧ result !! "object" = Some (PyList (value_of <$> objects_of
        [ leaf "filename" "0001.jpg"; size_xml "100" "100";
          object_xml "car" "0" "10" "20" "30" "40";
          object_xml "dog" "1" "5" "5" "50" "50" ])).
Proof.
  destruct (C1_object_siblings_accumulate "annotation" None
    [ leaf "filename" "0001.jpg"; size_xml "100" "100";
      object_xml "car" "0" "10" "20" "30" "40";
      object_xml "dog" "1" "5" "5" "50" "50" ]) as (result & H1 & H2 & _).
  - vm_compute. lia.
  - exists result. split; [exact H1 | exact H2].
Defined.

(** C10: when two or more children carry the same tag [k] other than
    [object], the dictionary built for their parent holds under [k] the
    entry of the last of them only, and that entry is not a list: the
    earlier ones were overwritten. *)
Theorem C10_other_siblings_overwrite
    (tag : string) (text : option string) (children : list xml) (k : string) :
  k ≠ "object" →
  (2 ≤ length (filter (λ c, xml_tag c = k) children))%nat →
  ∃ result c,
    _recursive_parse_xml_to_dict (Element tag text children)
      = Ok (PyDict {[ tag := PyDict result ]})
    ∧ last_tagged k children = Some c
    ∧ _recursive_parse_xml_to_dict c = Ok (PyDict {[ k := value_of c ]})
    ∧ result !! k = Some (value_of c)
    ∧ ¬ is_list (value_of c).
Proof.
  intros Hk Htwo.
  assert (Hne : children ≠ []) by (intros ->; simpl in Htwo; lia).
  destruct (parse_node tag text children Hne) as (result & Hparse & _ & Hother).
  specialize (Hother k Hk). unfold last_tagged in *.
  destruct (last (filter (λ c, xml_tag c = k) children)) as [c|] eqn:Hlast.
  - exists result, c. split; [exact Hparse|]. split; [done|].
    assert (Htag : xml_tag c = k).
    { apply last_Some in Hlast as [l' Hl'].
      assert (Hin : c ∈ filter (λ c, xml_tag c = k) children).
      { rewrite Hl'. apply elem_of_app. right. by apply list_elem_of_singleton. }
      by apply list_elem_of_filter in Hin as [? _]. }
    split; [rewrite <- Htag; apply parse_value_of|].
    split; [exact Hother | apply value_of_not_list].
  - apply last_None in Hlast. rewrite Hlast in Htwo. simpl in Htwo. lia.
Qed.

Lemma C10_other_siblings_overwrite_witness :
  ∃ result,
    _recursive_parse_xml_to_dict
      (Element "size" None [leaf "width" "1"; leaf "height" "2";
                            leaf "width" "3"])
      = Ok (PyDict {[ "size" := PyDict result ]})
    ∧ result !! "width" = Some (value_of (leaf "width" "3")).
Proof.
  destruct (C10_other_siblings_overwrite "size" None
    [leaf "width" "1"; leaf "height" "2"; leaf "width" "3"] "width")
    as (result & c & H1 & H2 & _ & H3 & _).
  - done.
  - vm_compute. lia.
  - exists result. split; [exact H1|].
    vm_compute in H2. injection H2 as <-. exact H3.
Defined.

(** ** Facts about comprehensions and the builder loop *)

Lemma list_comp_Ok {A B} (cond : A → res bool) (f : A → res B)
    (l : list A) (ys : list B) :
  list_comp cond f l = Ok ys →
  Forall (λ x, is_Ok (cond x)) l
  ∧ Forall2 (λ x y, f x = Ok y) (filter (λ x, cond x = Ok true) l) ys.
Proof.
  revert ys. induction l as [|x l IH]; intros ys; simpl.
  - intros [= <-]. split; constructor.
  - destruct (cond x) as [[]|e] eqn:Hc; simpl; [| |done].
    + destruct (f x) as [y|e] eqn:Hf; simpl; [|done].
      destruct (list_comp cond f l) as [ys'|e]; simpl; [|done].
      intros [= <-]. destruct (IH ys' eq_refl) as [Hall Hrel].
      split; [constructor; [by eexists | done]|].
      rewrite filter_cons_True by done. by constructor.
    + intros Hl. destruct (IH ys Hl) as [Hall Hrel].
      split; [constructor; [by eexists | done]|].
      rewrite filter_cons_False; [done|]. by rewrite Hc.
Qed.

Lemma not_difficult_true (obj : pyval) :
  not_difficult obj = Ok true ↔ difficult_flag obj = Ok 0.
Proof.
  unfold not_difficult. destruct (difficult_flag obj) as [n|e]; simpl.
  - case_bool_decide; split; intros [=]; by subst.
  - split; intros [=].
Qed.

Lemma not_difficult_Ok (obj : pyval) :
  is_Ok (not_difficult obj) → is_Ok (difficult_flag obj).
Proof.
  unfold not_difficult. destruct (difficult_flag obj); [by eexists|].
  by intros [? [=]].
Qed.

(** The record derived from [data]: both sequences are the images of the
    objects whose difficult flag is 0. *)
Lemma make_annotation_Ok (data : pyval) (ann : annotation) :
  make_annotation data = Ok ann →
  ∃ objs,
    data_objects data = Ok objs
    ∧ Forall (λ obj, is_Ok (difficult_flag obj)) objs
    ∧ Forall2 (λ obj box, box_of obj = Ok box)
        (filter (λ obj, difficult_flag obj = Ok 0) objs) (ann_boxes ann)
    ∧ Forall2 (λ obj label, label_of obj = Ok label)
        (filter (λ obj, difficult_flag obj = Ok 0) objs) (ann_labels ann)
    ∧ py_getitem data "size" = Ok (ann_size ann).
Proof.
  unfold make_annotation.
  destruct (data_objects data) as [objs|e]; simpl; [|done].
  destruct (list_comp not_difficult box_of objs) as [boxes|e] eqn:Hb;
    simpl; [|done].
  destruct (list_comp not_difficult label_of objs) as [labels|e] eqn:Hl;
    simpl; [|done].
  destruct (py_getitem data "size") as [sz|e]; simpl; [|done].
  intros [= <-]. simpl. exists objs.
  apply list_comp_Ok in Hb as [Hflags Hb]. apply list_comp_Ok in Hl as [_ Hl].
  rewrite (list_filter_iff _ (λ obj, difficult_flag obj = Ok 0))
    in Hb, Hl by apply not_difficult_true.
  repeat split; try done.
  eapply Forall_impl; [exact Hflags|]. intros obj. apply not_difficult_Ok.
Qed.

Lemma init_Ok (fs : voc_files) (t : option transform) (ds : PascalVOC) :
  __init__ fs t = Ok ds →
  ∃ content anns,
    split_file fs = Ok content
    ∧ for_loop (load_annotation fs) (manifest_ids content) ∅ = Ok anns
    ∧ ds = {| ids := manifest_ids content;
              json_category_id_to_contiguous_id :=
                make_json_category_id_to_contiguous_id;
              contiguous_category_id_to_json_id :=
                make_contiguous_category_id_to_json_id
                  make_json_category_id_to_contiguous_id;
              anns := anns;
              id_to_img_map := dict_of_items (enumerate (manifest_ids content));
              transforms := t |}.
Proof.
  unfold __init__. destruct (split_file fs) as [content|e]; simpl; [|done].
  destruct (for_loop _ _ _) as [anns|e] eqn:Hloop; simpl; [|done].
  intros [= <-]. by exists content, anns.
Qed.

(** After the loop over [l], every identifier of [l] has its record, derived
    from its annotation file; other keys are untouched. *)
Lemma load_annotations_spec (fs : voc_files) (l : list string)
    (anns0 anns : gmap string annotation) :
  for_loop (load_annotation fs) l anns0 = Ok anns →
  ∀ img_id,
    (img_id ∈ l →
       ∃ x ann, annotation_file fs img_id = Ok x
                ∧ annotation_of_xml x = Ok ann
                ∧ anns !! img_id = Some ann)
    ∧ (img_id ∉ l → anns !! img_id = anns0 !! img_id).
Proof.
  revert anns0. induction l as [|y l IH]; intros anns0; simpl.
  - intros [= <-] img_id. split; [by intros ?%elem_of_nil | done].
  - intros (anns1 & Hstep & Hloop)%res_bind_Ok img_id.
    unfold load_annotation in Hstep.
    apply res_bind_Ok in Hstep as (x & Hx & Hstep).
    apply res_bind_Ok in Hstep as (ann & Hann & [= <-]).
    destruct (IH _ Hloop img_id) as [Hin Hout].
    split.
    + intros Hel. destruct (decide (img_id ∈ l)) as [Hl|Hl]; [by apply Hin|].
      apply elem_of_cons in Hel as [->|Hel]; [|done].
      exists x, ann. repeat split; try done.
      by rewrite (Hout Hl), lookup_insert_eq.
    + intros Hnel. apply not_elem_of_cons in Hnel as [Hne Hnl].
      by rewrite (Hout Hnl), lookup_insert_ne.
Qed.

(** Every identifier of a constructed dataset has a record, derived from its
    annotation file. *)
Lemma init_anns (fs : voc_files) (t : option transform) (ds : PascalVOC)
    (img_id : string) :
  __init__ fs t = Ok ds →
  img_id ∈ ids ds →
  ∃ x ann, annotation_file fs img_id = Ok x
           ∧ annotation_of_xml x = Ok ann
           ∧ anns ds !! img_id = Some ann.
Proof.
  intros (content & anns & _ & Hloop & ->)%init_Ok Hin. simpl in *.
  by apply (load_annotations_spec _ _ _ _ Hloop img_id).
Qed.

Lemma annotation_of_xml_Ok (x : xml) (ann : annotation) :
  annotation_of_xml x = Ok ann →
  ∃ data, _recursive_parse_xml_to_dict x = Ok (PyDict {[ "annotation" := data ]})
          ∧ xml_tag x = "annotation"
          ∧ make_annotation data = Ok ann.
Proof.
  unfold annotation_of_xml. rewrite (parse_value_of x). simpl.
  destruct (decide (xml_tag x = "annotation")) as [->|Hne].
  - rewrite lookup_singleton_eq. simpl. intros Hm. by exists (value_of x).
  - rewrite lookup_singleton_ne by done. done.
Qed.

(** C2: for every identifier of a constructed dataset, the stored record was
    derived from the identifier's annotation file; its [boxes] and [labels]
    have the same length, and both are the images, in order, of exactly
    those objects whose [difficult] text parses to the integer 0 (every
    object's flag does parse): an object with a nonzero flag contributes to
    neither. *)
Theorem C2_boxes_labels_same_length_no_difficult
    (fs : voc_files) (t : option transform) (ds : PascalVOC)
    (img_id : string) :
  __init__ fs t = Ok ds →
  img_id ∈ ids ds →
  ∃ x data objs ann,
    annotation_file fs img_id = Ok x
    ∧ _recursive_parse_xml_to_dict x
      = Ok (PyDict {[ "annotation" := data ]})
    ∧ data_objects data = Ok objs
    ∧ anns ds !! img_id = Some ann
    ∧ length (ann_boxes ann) = length (ann_labels ann)
    ∧ Forall (λ obj, is_Ok (difficult_flag obj)) objs
    ∧ Forall2 (λ obj box, box_of obj = Ok box)
        (filter (λ obj, difficult_flag obj = Ok 0) objs) (ann_boxes ann)
    ∧ Forall2 (λ obj label, label_of obj = Ok label)
        (filter (λ obj, difficult_flag obj = Ok 0) objs) (ann_labels ann).
Proof.
  intros Hinit Hin.
  destruct (init_anns _ _ _ _ Hinit Hin) as (x & ann & Hx & Hann & Hlookup).
  apply annotation_of_xml_Ok in Hann as (data & Hparse & _ & Hmake).
  apply make_annotation_Ok in Hmake as (objs & Hobjs & Hflags & Hb & Hl & _).
  exists x, data, objs, ann. repeat split; try done.
  apply Forall2_length in Hb, Hl. congruence.
Qed.

Lemma trainval_dataset_init : __init__ trainval_files None = Ok trainval_dataset.
Proof. vm_compute. reflexivity. Qed.

Lemma C2_boxes_labels_same_length_no_difficult_witness :
  ∃ ann, anns trainval_dataset !! "0001" = Some ann
         ∧ length (ann_boxes ann) = length (ann_labels ann).
Proof.
  destruct (C2_boxes_labels_same_length_no_difficult
              trainval_files None trainval_dataset "0001")
    as (x & data & objs & ann & _ & _ & _ & Hann & Hlen & _).
  - vm_compute. reflexivity.
  - apply (bool_decide_unpack _). vm_compute. exact I.
  - exists ann. split; [exact Hann | exact Hlen].
Defined.

(** An [annotation] element with children none of which is tagged [object]
    leaves no [object] key behind, and the builder's [data['object']]
    raises. *)
Lemma annotation_without_object_KeyError
    (text : option string) (children : list xml) :
  children ≠ [] →
  objects_of children = [] →
  annotation_of_xml (Element "annotation" text children) = Raise KeyError.
Proof.
  intros Hne Hobjs.
  destruct (parse_node "annotation" text children Hne)
    as (result & Hparse & Hobj & _).
  unfold annotation_of_xml. rewrite Hparse. simpl.
  rewrite lookup_singleton_eq. simpl.
  unfold make_annotation, data_objects. simpl.
  rewrite Hobj, Hobjs. done.
Qed.

(** C3: the annotation file of sample [0003] is a well-formed [annotation]
    tree with a [size] entry and no [object] entry; constructing the dataset
    of the split that contains it raises [KeyError] at [data['object']],
    whereas a file whose only object is difficult (sample [0002]) gives a
    record with empty [boxes] and [labels]. *)
Theorem C3_zero_object_entries_raise_KeyError :
  objects_of (xml_children annotation_0003) = []
  ∧ annotation_of_xml annotation_0003 = Raise KeyError
  ∧ __init__ no_object_files None = Raise KeyError
  ∧ ∃ sz, annotation_of_xml annotation_0002
          = Ok {| ann_boxes := []; ann_labels := []; ann_size := sz |}.
Proof.
  split; [reflexivity|].
  split; [by apply annotation_without_object_KeyError|].
  split; [vm_compute; reflexivity|].
  eexists. vm_compute. reflexivity.
Qed.

(** ** The label lookup *)

Lemma tuple_index_from_bounds (i : Z) (names : list string) (v : pyval) (j : Z) :
  tuple_index_from i names v = Ok j →
  i ≤ j < i + Z.of_nat (length names)
  ∧ ∃ n, names !! Z.to_nat (j - i) = Some n ∧ v = PyStr n.
Proof.
  revert i. induction names as [|n names IH]; intros i; simpl; [done|].
  destruct (py_eq_str v n) eqn:Heq.
  - intros [= <-]. split; [lia|]. exists n. rewrite Z.sub_diag. split; [done|].
    destruct v; try done. simpl in Heq. by apply bool_decide_eq_true in Heq as ->.
  - intros [Hb (m & Hm & ->)]%IH. split; [lia|]. exists m. split; [|done].
    replace (Z.to_nat (j - i)) with (S (Z.to_nat (j - (i + 1)))) by lia.
    done.
Qed.

Lemma tuple_index_from_unknown (i : Z) (names : list string) (v : pyval) :
  (∀ n, n ∈ names → v ≠ PyStr n) →
  tuple_index_from i names v = Raise ValueError.
Proof.
  revert i. induction names as [|n names IH]; intros i Hno; simpl; [done|].
  destruct (py_eq_str v n) eqn:Heq.
  - destruct v as [|s| |]; try done. simpl in Heq.
    apply bool_decide_eq_true in Heq as ->.
    exfalso. apply (Hno n); [left | done].
  - apply IH. intros m Hm. apply Hno. by right.
Qed.

Lemma tuple_index_from_known (i : Z) (names : list string) (k : nat) (n : string) :
  NoDup names →
  names !! k = Some n →
  tuple_index_from i names (PyStr n) = Ok (i + Z.of_nat k).
Proof.
  revert i k. induction names as [|m names IH]; intros i k Hnd Hk; [done|].
  apply NoDup_cons in Hnd as [Hm Hnd]. simpl.
  destruct k as [|k]; simpl in Hk.
  - injection Hk as ->. rewrite bool_decide_eq_true_2 by done.
    f_equal. lia.
  - rewrite bool_decide_eq_false_2.
    + rewrite (IH (i + 1) k Hnd Hk). f_equal. lia.
    + intros ->. apply Hm. by eapply list_elem_of_lookup_2.
Qed.

Lemma VOC_BBOX_LABEL_NAMES_NoDup : NoDup VOC_BBOX_LABEL_NAMES.
Proof. apply (bool_decide_unpack _). vm_compute. exact I. Qed.

(** Every result of a label lookup is [Ok] or the [ValueError] of
    [tuple.index], once the object has a [name]. *)
Lemma label_of_Ok_or_ValueError (obj : pyval) :
  is_Ok (py_getitem obj "name") →
  is_Ok (label_of obj) ∨ label_of obj = Raise ValueError.
Proof.
  intros [name Hname]. unfold label_of. rewrite Hname. simpl.
  unfold tuple_index. generalize 0. generalize VOC_BBOX_LABEL_NAMES.
  intros names. induction names as [|n names IH]; intros i; simpl; [by right|].
  destruct (py_eq_str name n); [left; by eexists | apply IH].
Qed.

Lemma list_comp_Raise {A B} (cond : A → res bool) (f : A → res B)
    (l : list A) (x : A) (e : exn) :
  Forall (λ y, is_Ok (cond y)) l →
  Forall (λ y, is_Ok (f y) ∨ f y = Raise e) l →
  x ∈ l → cond x = Ok true → f x = Raise e →
  list_comp cond f l = Raise e.
Proof.
  intros Hcond Hf Hin Hcx Hfx.
  induction l as [|y l IH]; [by apply elem_of_nil in Hin|].
  apply Forall_cons in Hcond as [[c Hc] Hcond].
  apply Forall_cons in Hf as [Hfy Hf].
  simpl. rewrite Hc. simpl. destruct c.
  - destruct Hfy as [[v Hv]| ->]; [|done].
    rewrite Hv. simpl. rewrite IH; [done..|].
    apply elem_of_cons in Hin as [->|Hin]; [congruence | done].
  - apply IH; [done..|].
    apply elem_of_cons in Hin as [->|Hin]; [congruence | done].
Qed.

Lemma label_of_unknown (obj name : pyval) :
  py_getitem obj "name" = Ok name →
  (∀ n, n ∈ VOC_BBOX_LABEL_NAMES → name ≠ PyStr n) →
  label_of obj = Raise ValueError.
Proof.
  intros Hname Hno. unfold label_of. rewrite Hname. simpl.
  by apply tuple_index_from_unknown.
Qed.

Lemma label_of_known (obj : pyval) (k : nat) (n : string) :
  py_getitem obj "name" = Ok (PyStr n) →
  VOC_BBOX_LABEL_NAMES !! k = Some n →
  label_of obj = Ok (Z.of_nat k).
Proof.
  intros Hname Hk. unfold label_of. rewrite Hname. simpl. unfold tuple_index.
  by rewrite (tuple_index_from_known 0 _ k n VOC_BBOX_LABEL_NAMES_NoDup Hk).
Qed.

(** C6: (1) if the annotation file of some identifier of the manifest holds
    an object whose difficult flag is 0 and whose [name] equals none of the
    20 vocabulary entries, then the label lookup for it raises [ValueError]
    and the construction of the dataset raises: the object is neither
    skipped nor given a default label; when the boxes of that file can be
    built and every object has a [name], the record construction raises
    exactly this [ValueError]. (2) For a name that is the [k]-th entry of
    the vocabulary, the label lookup returns [k], with [0 ≤ k < 20]. *)
Theorem C6_unknown_class_fatal_known_class_position
    (fs : voc_files) (t : option transform) :
  (∀ content img_id x data objs obj name,
     split_file fs = Ok content →
     img_id ∈ manifest_ids content →
     annotation_file fs img_id = Ok x →
     _recursive_parse_xml_to_dict x = Ok (PyDict {[ "annotation" := data ]}) →
     data_objects data = Ok objs →
     obj ∈ objs →
     difficult_flag obj = Ok 0 →
     py_getitem obj "name" = Ok name →
     (∀ n, n ∈ VOC_BBOX_LABEL_NAMES → name ≠ PyStr n) →
     label_of obj = Raise ValueError
     ∧ is_Raise (__init__ fs t)
     ∧ (is_Ok (list_comp not_difficult box_of objs) →
        Forall (λ o, is_Ok (py_getitem o "name")) objs →
        make_annotation data = Raise ValueError))
  ∧ (∀ obj k n,
       py_getitem obj "name" = Ok (PyStr n) →
       VOC_BBOX_LABEL_NAMES !! k = Some n →
       label_of obj = Ok (Z.of_nat k) ∧ 0 ≤ Z.of_nat k < 20).
Proof.
  split.
  - intros content img_id x data objs obj name
      Hsplit Hid Hx Hparse Hobjs Hobj Hflag Hname Hunknown.
    pose proof (label_of_unknown _ _ Hname Hunknown) as Hlabel.
    split; [exact Hlabel|]. split.
    + destruct (__init__ fs t) as [ds|e] eqn:Hinit; [|by eexists].
      exfalso.
      pose proof Hinit as (content' & anns & Hsplit' & _ & Hds)%init_Ok.
      assert (Hin : img_id ∈ ids ds).
      { rewrite Hds. simpl. congruence. }
      destruct (init_anns _ _ _ _ Hinit Hin) as (x' & ann & Hx' & Hann & _).
      assert (x' = x) as -> by congruence.
      apply annotation_of_xml_Ok in Hann as (data' & Hparse' & _ & Hmake).
      assert (data' = data) as ->.
      { assert (Heq : ({[ "annotation" := data' ]} : gmap string pyval)
                      = {[ "annotation" := data ]}) by congruence.
        apply (f_equal (λ d : gmap string pyval, d !! "annotation")) in Heq.
        rewrite !lookup_singleton_eq in Heq. congruence. }
      apply make_annotation_Ok in Hmake as (objs' & Hobjs' & _ & _ & Hl & _).
      assert (objs' = objs) as -> by congruence.
      assert (Hkept : obj ∈ filter (λ o, difficult_flag o = Ok 0) objs).
      { by apply list_elem_of_filter. }
      apply list_elem_of_lookup in Hkept as [i Hi].
      destruct (Forall2_lookup_l _ _ _ _ _ Hl Hi) as (label & _ & Hok).
      congruence.
    + intros [boxes Hboxes] Hnames.
      unfold make_annotation. rewrite Hobjs. simpl. rewrite Hboxes. simpl.
      apply list_comp_Ok in Hboxes as [Hcond _].
      rewrite (list_comp_Raise not_difficult label_of objs obj ValueError);
        [done | done | | done | by apply not_difficult_true | done].
      eapply Forall_impl; [exact Hnames|]. apply label_of_Ok_or_ValueError.
  - intros obj k n Hname Hk. split; [by eapply label_of_known|].
    apply lookup_lt_Some in Hk. simpl in Hk. lia.
Qed.

Lemma C6_unknown_class_fatal_known_class_position_witness :
  is_Raise (__init__ unknown_class_files None)
  ∧ label_of (value_of (object_xml "car" "0" "10" "20" "30" "40")) = Ok 6.
Proof.
  destruct (C6_unknown_class_fatal_known_class_position
              unknown_class_files None) as [Hfatal Hknown].
  split.
  - eapply (Hfatal _ "0004" annotation_0004 _ _
              (value_of (object_xml "unicorn" "0" "10" "20" "30" "40"))
              (PyStr "unicorn")).
    + reflexivity.
    + apply (bool_decide_unpack _). vm_compute. exact I.
    + reflexivity.
    + apply parse_value_of.
    + vm_compute. reflexivity.
    + vm_compute. left.
    + vm_compute. reflexivity.
    + vm_compute. reflexivity.
    + intros n Hn [= <-]. revert Hn. apply (bool_decide_unpack _).
      vm_compute. exact I.
  - apply (Hknown _ 6%nat "car"); vm_compute; reflexivity.
Defined.

(** ** Indexing *)

Lemma dict_of_items_snoc `{Countable K} {V} (items : list (K * V)) (k : K) (v : V) :
  dict_of_items (items ++ [(k, v)]) = <[k := v]> (dict_of_items items).
Proof. unfold dict_of_items. by rewrite foldl_app. Qed.

Lemma enumerate_snoc {A} (l : list A) (x : A) :
  enumerate (l ++ [x]) = enumerate l ++ [(Z.of_nat (length l), x)].
Proof.
  unfold enumerate. rewrite imap_app. simpl. by rewrite Nat.add_0_r.
Qed.

(** The table built from [enumerate(l)] maps exactly the positions of [l],
    each to its entry. *)
Lemma dict_of_enumerate_lookup {A} (l : list A) (i : Z) :
  dict_of_items (enumerate l) !! i =
    if decide (0 ≤ i < Z.of_nat (length l)) then l !! Z.to_nat i else None.
Proof.
  induction l as [|x l IH] using rev_ind.
  - simpl. case_decide; [simpl in *; lia | done].
  - rewrite enumerate_snoc, dict_of_items_snoc, length_app. simpl.
    destruct (decide (i = Z.of_nat (length l))) as [->|Hne].
    + rewrite lookup_insert_eq, decide_True by lia.
      rewrite Nat2Z.id. by rewrite list_lookup_middle.
    + rewrite lookup_insert_ne, IH by done.
      repeat case_decide; try lia; try done.
      all: rewrite lookup_app_l by lia; done.
Qed.

Lemma py_list_getitem_nonneg {A} (l : list A) (i : Z) :
  0 ≤ i < Z.of_nat (length l) →
  ∃ x, l !! Z.to_nat i = Some x ∧ py_list_getitem l i = Ok x.
Proof.
  intros Hi. unfold py_list_getitem.
  destruct (decide (i < 0)) as [?|_]; [lia|].
  destruct (decide (0 ≤ i < Z.of_nat (length l))) as [_|?]; [|lia].
  destruct (l !! Z.to_nat i) as [x|] eqn:Hx; [by exists x|].
  apply lookup_ge_None in Hx. lia.
Qed.

Lemma py_list_getitem_negative {A} (l : list A) (i : Z) :
  - Z.of_nat (length l) ≤ i < 0 →
  py_list_getitem l i = py_list_getitem l (Z.of_nat (length l) + i).
Proof.
  intros Hi. unfold py_list_getitem.
  destruct (decide (i < 0)) as [_|?]; [|lia].
  destruct (decide (Z.of_nat (length l) + i < 0)) as [?|_]; [lia|].
  by rewrite Z.add_comm.
Qed.

Lemma py_list_getitem_out_of_range {A} (l : list A) (i : Z) :
  i < - Z.of_nat (length l) ∨ Z.of_nat (length l) ≤ i →
  py_list_getitem l i = Raise IndexError.
Proof.
  intros Hi. unfold py_list_getitem.
  destruct (decide (i < 0)); case_decide; (lia || done).
Qed.

(** ** The manifest *)

Lemma sorted_Permutation (l : list string) : sorted l ≡ₚ l.
Proof. apply merge_sort_Permutation. Qed.

Lemma sorted_StronglySorted (l : list string) :
  StronglySorted String.le (sorted l).
Proof. apply StronglySorted_merge_sort; apply _. Qed.

(** Any sorted rearrangement of [l] is [sorted l]. *)
Lemma sorted_unique (l l' : list string) :
  l' ≡ₚ l → StronglySorted String.le l' → l' = sorted l.
Proof.
  intros Hperm Hsorted.
  apply (StronglySorted_unique String.le); [done | apply sorted_StronglySorted |].
  by rewrite Hperm, sorted_Permutation.
Qed.

(** C7: the identifiers computed from the text of the manifest are a
    rearrangement of its lines with surrounding whitespace stripped (so
    every line, repeated or not, is kept with its multiplicity), they are
    in lexicographic order, and they are the only such list; a dataset
    constructed from that manifest holds this list, has as many samples as
    the manifest has lines, and for every index [i] with
    [0 ≤ i < sample count] the reverse lookup table and the list indexing
    used by [__getitem__] and [get_img_info] both give the [i]-th
    identifier of the list. *)
Theorem C7_ids_sorted_stripped_lines_with_duplicates (content : string) :
  manifest_ids content ≡ₚ strip <$> readlines content
  ∧ StronglySorted String.le (manifest_ids content)
  ∧ (∀ l, l ≡ₚ strip <$> readlines content →
          StronglySorted String.le l → l = manifest_ids content)
  ∧ ∀ fs t ds,
      split_file fs = Ok content →
      __init__ fs t = Ok ds →
      ids ds = manifest_ids content
      ∧ __len__ ds = Z.of_nat (length (readlines content))
      ∧ ∀ i, 0 ≤ i < __len__ ds →
          ∃ img_id,
            ids ds !! Z.to_nat i = Some img_id
            ∧ id_to_img_map ds !! i = Some img_id
            ∧ py_list_getitem (ids ds) i = Ok img_id
            ∧ (∀ fs', __getitem__ ds fs' i =
                 img ← image_file fs' img_id;
                 ann ← dict_getitem (anns ds) img_id;
                 getitem_body ds img ann i)
            ∧ get_img_info ds i =
                ann ← dict_getitem (anns ds) img_id; Ok (ann_size ann).
Proof.
  split; [apply sorted_Permutation|].
  split; [apply sorted_StronglySorted|].
  split; [intros l; apply sorted_unique|].
  intros fs t ds Hsplit Hinit.
  pose proof Hinit as (content' & anns & Hsplit' & _ & Hds)%init_Ok.
  assert (content' = content) as -> by congruence.
  assert (Hids : ids ds = manifest_ids content) by (by rewrite Hds).
  split; [exact Hids|].
  assert (Hlen : __len__ ds = Z.of_nat (length (readlines content))).
  { unfold __len__. rewrite Hids. unfold manifest_ids.
    by rewrite sorted_Permutation, length_fmap. }
  split; [exact Hlen|].
  intros i Hi. unfold __len__ in Hi.
  destruct (py_list_getitem_nonneg (ids ds) i Hi) as (img_id & Hlook & Hget).
  exists img_id. split; [exact Hlook|].
  split.
  { rewrite Hds in Hlook, Hi |- *. simpl in *.
    by rewrite dict_of_enumerate_lookup, decide_True. }
  split; [exact Hget|].
  split.
  - intros fs'. unfold __getitem__. by rewrite Hget.
  - unfold get_img_info. by rewrite Hget.
Qed.

Lemma C7_ids_sorted_stripped_lines_with_duplicates_witness :
  ids trainval_dataset = ["0001"; "0002"]
  ∧ id_to_img_map trainval_dataset !! 0 = Some "0001".
Proof.
  destruct (C7_ids_sorted_stripped_lines_with_duplicates
              ("0002" +:+ newline +:+ "0001" +:+ newline))
    as (_ & _ & _ & Hds).
  destruct (Hds trainval_files None trainval_dataset) as (Hids & _ & Hidx).
  - reflexivity.
  - vm_compute. reflexivity.
  - split.
    + rewrite Hids. vm_compute. reflexivity.
    + destruct (Hidx 0) as (img_id & _ & Hmap & _).
      * vm_compute. split; [discriminate | reflexivity].
      * vm_compute. reflexivity.
Defined.

(** ** Records of a constructed dataset *)

(** The records of a constructed dataset are exactly those of its
    identifiers. *)
Lemma init_anns_inv (fs : voc_files) (t : option transform) (ds : PascalVOC)
    (img_id : string) (ann : annotation) :
  __init__ fs t = Ok ds →
  anns ds !! img_id = Some ann →
  img_id ∈ ids ds
  ∧ ∃ x, annotation_file fs img_id = Ok x ∧ annotation_of_xml x = Ok ann.
Proof.
  intros Hinit Hann.
  pose proof Hinit as (content & anns & _ & Hloop & Hds)%init_Ok.
  destruct (load_annotations_spec _ _ _ _ Hloop img_id) as [_ Hout].
  assert (Hin : img_id ∈ ids ds).
  { rewrite Hds. simpl. destruct (decide (img_id ∈ manifest_ids content)); [done|].
    rewrite Hds in Hann. simpl in Hann. rewrite Hout in Hann by done. done. }
  split; [exact Hin|].
  destruct (init_anns _ _ _ _ Hinit Hin) as (x & ann' & Hx & Hann' & Hlook).
  exists x. split; [done|]. congruence.
Qed.

(** Within range, the index resolves to an identifier that has a record, and
    [get_img_info] returns the size stored in it. *)
Lemma get_img_info_in_range (fs : voc_files) (t : option transform)
    (ds : PascalVOC) (i : Z) :
  __init__ fs t = Ok ds →
  0 ≤ i < __len__ ds →
  ∃ img_id x ann,
    ids ds !! Z.to_nat i = Some img_id
    ∧ py_list_getitem (ids ds) i = Ok img_id
    ∧ annotation_file fs img_id = Ok x
    ∧ annotation_of_xml x = Ok ann
    ∧ anns ds !! img_id = Some ann
    ∧ get_img_info ds i = Ok (ann_size ann).
Proof.
  intros Hinit Hi. unfold __len__ in Hi.
  destruct (py_list_getitem_nonneg (ids ds) i Hi) as (img_id & Hlook & Hget).
  assert (Hin : img_id ∈ ids ds) by (by eapply list_elem_of_lookup_2).
  destruct (init_anns _ _ _ _ Hinit Hin) as (x & ann & Hx & Hann & Hrec).
  exists img_id, x, ann. repeat split; try done.
  unfold get_img_info, dict_getitem. by rewrite Hget; simpl; rewrite Hrec.
Qed.

(** C8: for a constructed dataset and every index [i] with
    [0 ≤ i < sample count], there are an identifier and a stored record such
    that [get_img_info i] returns the [size] of that record, which is the
    [size] entry parsed from the identifier's annotation file, and
    [__getitem__ i], once the image is loaded, continues with this very
    record. [get_img_info] is a function of the dataset object and the
    index alone: it reads no file and clips nothing. *)
Theorem C8_get_img_info_is_size_of_getitem_record
    (fs : voc_files) (t : option transform) (ds : PascalVOC) (i : Z) :
  __init__ fs t = Ok ds →
  0 ≤ i < __len__ ds →
  ∃ img_id ann,
    py_list_getitem (ids ds) i = Ok img_id
    ∧ anns ds !! img_id = Some ann
    ∧ get_img_info ds i = Ok (ann_size ann)
    ∧ (∀ fs' img, image_file fs' img_id = Ok img →
         __getitem__ ds fs' i = getitem_body ds img ann i)
    ∧ ∃ x data,
        annotation_file fs img_id = Ok x
        ∧ _recursive_parse_xml_to_dict x
          = Ok (PyDict {[ "annotation" := data ]})
        ∧ py_getitem data "size" = Ok (ann_size ann).
Proof.
  intros Hinit Hi.
  destruct (get_img_info_in_range _ _ _ _ Hinit Hi)
    as (img_id & x & ann & _ & Hget & Hx & Hann & Hrec & Hinfo).
  exists img_id, ann. split; [exact Hget|]. split; [exact Hrec|].
  split; [exact Hinfo|].
  split.
  { intros fs' img Himg. unfold __getitem__, dict_getitem.
    rewrite Hget. simpl. rewrite Himg. simpl. by rewrite Hrec. }
  apply annotation_of_xml_Ok in Hann as (data & Hparse & _ & Hmake).
  apply make_annotation_Ok in Hmake as (_ & _ & _ & _ & _ & Hsize).
  by exists x, data.
Qed.

Lemma C8_get_img_info_is_size_of_getitem_record_witness :
  ∃ ann, anns trainval_dataset !! "0001" = Some ann
         ∧ get_img_info trainval_dataset 0 = Ok (ann_size ann).
Proof.
  destruct (C8_get_img_info_is_size_of_getitem_record
              trainval_files None trainval_dataset 0)
    as (img_id & ann & Hid & Hann & Hinfo & _).
  - vm_compute. reflexivity.
  - vm_compute. split; [discriminate | reflexivity].
  - exists ann. split; [|exact Hinfo].
    vm_compute in Hid. injection Hid as <-. exact Hann.
Defined.

Lemma getitem_body_with_index (ds : PascalVOC) (img : image)
    (ann : annotation) (index index' : Z) :
  getitem_body ds img ann index
  = with_index index <$> getitem_body ds img ann index'.
Proof.
  unfold getitem_body. destruct (make_target ds img ann) as [target|e]; [|done].
  simpl. unfold apply_transforms. destruct (transforms ds) as [tr|]; [|done].
  destruct (tr img (clip_to_image target true)) as [[img' target']|e];
    reflexivity.
Qed.

(** ** The target built by the accessor *)

Lemma make_target_no_boxes (ds : PascalVOC) (img : image) (ann : annotation) :
  ann_boxes ann = [] →
  ann_labels ann = [] →
  make_target ds img ann =
    Ok {| bbox := {| shape := [0; 4]; elements := [] |};
          size := image_size img;
          mode := "xyxy";
          extra_fields := {[ "labels" := tensor_of_list [] ]} |}.
Proof. intros Hb Hl. unfold make_target. rewrite Hb, Hl. reflexivity. Qed.

Lemma clip_to_image_no_boxes (image_size : Z * Z) (m : string)
    (fields : gmap string tensor) :
  clip_to_image {| bbox := {| shape := [0; 4]; elements := [] |};
                   size := image_size; mode := m;
                   extra_fields := fields |} true
  = {| bbox := {| shape := [0; 4]; elements := [] |};
       size := image_size; mode := m;
       extra_fields := (λ t, tensor_of_list []) <$> fields |}.
Proof. reflexivity. Qed.

(** C4: when the index resolves to an identifier whose image loads and whose
    record has empty [boxes] and [labels], the target the accessor builds
    and clips has a box structure of shape (0, 4) with no element, a
    [labels] field of shape (0) with no element, corner-coordinate mode and
    the size of the image; given no transforms, [__getitem__] returns the
    image, this target and the index; given transforms, it hands the image
    and this target to them. No step of the accessor itself raises. *)
Theorem C4_no_boxes_gives_zero_row_target
    (ds : PascalVOC) (fs : voc_files) (index : Z)
    (img_id : string) (img : image) (ann : annotation) :
  py_list_getitem (ids ds) index = Ok img_id →
  image_file fs img_id = Ok img →
  anns ds !! img_id = Some ann →
  ann_boxes ann = [] →
  ann_labels ann = [] →
  ∃ target labels,
    shape (bbox target) = [0; 4]
    ∧ elements (bbox target) = []
    ∧ rows_of_4 (elements (bbox target)) = []
    ∧ mode target = "xyxy"
    ∧ size target = image_size img
    ∧ extra_fields target !! "labels" = Some labels
    ∧ shape labels = [0]
    ∧ elements labels = []
    ∧ __getitem__ ds fs index = apply_transforms ds img target index
    ∧ (transforms ds = None →
       __getitem__ ds fs index = Ok (img, target, index)).
Proof.
  intros Hid Himg Hann Hb Hl.
  exists (clip_to_image
            {| bbox := {| shape := [0; 4]; elements := [] |};
               size := image_size img; mode := "xyxy";
               extra_fields := {[ "labels" := tensor_of_list [] ]} |} true),
         (tensor_of_list []).
  assert (Hget : __getitem__ ds fs index
                 = apply_transforms ds img
                     (clip_to_image
                        {| bbox := {| shape := [0; 4]; elements := [] |};
                           size := image_size img; mode := "xyxy";
                           extra_fields := {[ "labels" := tensor_of_list [] ]} |}
                        true) index).
  { unfold __getitem__, dict_getitem. rewrite Hid. simpl. rewrite Himg. simpl.
    rewrite Hann. simpl. unfold getitem_body.
    by rewrite (make_target_no_boxes ds img ann Hb Hl). }
  rewrite clip_to_image_no_boxes in Hget |- *. simpl.
  do 5 (split; [reflexivity|]).
  split; [by rewrite lookup_fmap, lookup_singleton_eq|].
  do 2 (split; [reflexivity|]).
  split; [exact Hget|].
  intros Hnone. rewrite Hget. unfold apply_transforms. by rewrite Hnone.
Qed.

Lemma C4_no_boxes_gives_zero_row_target_witness :
  ∃ target,
    shape (bbox target) = [0; 4]
    ∧ __getitem__ trainval_dataset trainval_files 1
      = Ok ({| image_size := (64, 48) |}, target, 1).
Proof.
  destruct (C4_no_boxes_gives_zero_row_target
              trainval_dataset trainval_files 1 "0002"
              {| image_size := (64, 48) |}
              {| ann_boxes := []; ann_labels := [];
                 ann_size := value_of (size_xml "64" "48") |})
    as (target & labels & Hshape & _ & _ & _ & _ & _ & _ & _ & _ & Hget).
  - vm_compute. reflexivity.
  - vm_compute. reflexivity.
  - vm_compute. reflexivity.
  - reflexivity.
  - reflexivity.
  - exists target. split; [exact Hshape|]. apply Hget. vm_compute. reflexivity.
Defined.

(** ** The two id mappings *)

Lemma dict_of_items_lookup_Some `{Countable K} {V}
    (items : list (K * V)) (k : K) (v : V) :
  dict_of_items items !! k = Some v → (k, v) ∈ items.
Proof.
  induction items as [|[k' v'] items IH] using rev_ind; [done|].
  rewrite dict_of_items_snoc. simpl.
  destruct (decide (k' = k)) as [->|Hne].
  - rewrite lookup_insert_eq. intros [= ->].
    apply elem_of_app. right. by apply list_elem_of_singleton.
  - rewrite lookup_insert_ne by done. intros Hl.
    apply elem_of_app. left. by apply IH.
Qed.

Lemma json_to_contiguous_lookup (c : Z) :
  0 ≤ c < 20 → make_json_category_id_to_contiguous_id !! c = Some (c + 1).
Proof.
  intros Hc. rewrite <- (Z2Nat.id c) by lia.
  assert (Hn : (Z.to_nat c < 20)%nat) by lia.
  generalize dependent (Z.to_nat c). intros n Hn.
  do 20 (destruct n as [|n]; [vm_compute; reflexivity|]). lia.
Qed.

Lemma json_to_contiguous_lookup_inv (c k : Z) :
  make_json_category_id_to_contiguous_id !! c = Some k →
  0 ≤ c < 20 ∧ k = c + 1.
Proof.
  intros Hl%dict_of_items_lookup_Some. vm_compute in Hl.
  repeat (apply elem_of_cons in Hl as [[= -> ->]|Hl]; [lia|]).
  by apply elem_of_nil in Hl.
Qed.

Lemma contiguous_to_json_lookup (c : Z) :
  0 ≤ c < 20 →
  make_contiguous_category_id_to_json_id
    make_json_category_id_to_contiguous_id !! (c + 1) = Some c.
Proof.
  intros Hc. rewrite <- (Z2Nat.id c) by lia.
  assert (Hn : (Z.to_nat c < 20)%nat) by lia.
  generalize dependent (Z.to_nat c). intros n Hn.
  do 20 (destruct n as [|n]; [vm_compute; reflexivity|]). lia.
Qed.

(** The second mapping only holds swapped items of the first. *)
Lemma contiguous_to_json_lookup_inv (d : gmap Z Z) (k c : Z) :
  make_contiguous_category_id_to_json_id d !! k = Some c → d !! c = Some k.
Proof.
  intros Hl%dict_of_items_lookup_Some.
  apply list_elem_of_fmap in Hl as ([c' k'] & [= -> ->] & Hin).
  by apply elem_of_map_to_list in Hin.
Qed.

Lemma mapM_res_cons {A B} (f : A → res B) (x : A) (l : list A) :
  mapM f (x :: l) = y ← f x; ys ← mapM f l; Ok (y :: ys).
Proof. reflexivity. Qed.

Lemma remap_labels (labels : list Z) :
  Forall (λ c, 0 ≤ c < 20) labels →
  mapM (dict_getitem make_json_category_id_to_contiguous_id) labels
  = Ok ((λ c, c + 1) <$> labels).
Proof.
  induction 1 as [|c labels Hc _ IH]; [done|].
  rewrite mapM_res_cons, IH. unfold dict_getitem.
  by rewrite (json_to_contiguous_lookup c Hc).
Qed.

Lemma remap_labels_Ok (labels classes : list Z) :
  mapM (dict_getitem make_json_category_id_to_contiguous_id) labels
  = Ok classes →
  Forall (λ c, 0 ≤ c < 20) labels.
Proof.
  revert classes. induction labels as [|c labels IH]; intros classes; [done|].
  rewrite mapM_res_cons. intros (k & Hk & Hrest)%res_bind_Ok.
  apply res_bind_Ok in Hrest as (ks & Hks & _).
  constructor; [|by eapply IH].
  unfold dict_getitem in Hk.
  destruct (make_json_category_id_to_contiguous_id !! c) as [k'|] eqn:Hc;
    [|done].
  by apply json_to_contiguous_lookup_inv in Hc as [? _].
Qed.

Lemma length_concat_rows_of_4 (boxes : list (list Z)) :
  Forall (λ b, length b = 4%nat) boxes →
  Z.of_nat (length (concat boxes)) = 4 * Z.of_nat (length boxes).
Proof.
  induction 1 as [|b boxes Hb _ IH]; [done|].
  simpl. rewrite length_app. lia.
Qed.

(** Boxes of four coordinates each become a tensor of that many rows of
    width 4. *)
Lemma store_rows_fit (boxes : list (list Z)) :
  Forall (λ b, length b = 4%nat) boxes →
  store_rows 4 boxes
  = if boxes_fit_int64 boxes then Ok (concat boxes) else Raise RuntimeError.
Proof.
  unfold boxes_fit_int64.
  induction 1 as [|b boxes Hb _ IH]; [done|].
  simpl. rewrite Hb. simpl.
  destruct (forallb in_int64 b); simpl; [|done].
  rewrite IH. by destruct (forallb (forallb in_int64) boxes).
Qed.

Lemma as_tensor_rows_of_4 (boxes : list (list Z)) :
  boxes ≠ [] →
  Forall (λ b, length b = 4%nat) boxes →
  as_tensor boxes
  = if boxes_fit_int64 boxes then
      Ok {| shape := [Z.of_nat (length boxes); 4]; elements := concat boxes |}
    else Raise RuntimeError.
Proof.
  intros Hne Hall. pose proof (store_rows_fit boxes Hall) as Hstore.
  destruct boxes as [|row boxes'] eqn:Hboxes; [done|].
  rewrite <- Hboxes in *. unfold as_tensor. rewrite Hboxes at 1.
  assert (Hrow : length row = 4%nat).
  { rewrite Forall_forall in Hall. apply Hall. rewrite Hboxes. by left. }
  rewrite Hrow, Hstore. by destruct (boxes_fit_int64 boxes).
Qed.

(** Boxes of four coordinates each become a tensor of that many rows of
    width 4 when every coordinate fits 64 bits; otherwise
    [torch.as_tensor] raises. *)
Lemma boxes_tensor (boxes : list (list Z)) :
  Forall (λ b, length b = 4%nat) boxes →
  as_tensor boxes ≫= reshape_rows_of_4
  = if boxes_fit_int64 boxes then
      Ok {| shape := [Z.of_nat (length boxes); 4]; elements := concat boxes |}
    else Raise RuntimeError.
Proof.
  intros Hall. pose proof (length_concat_rows_of_4 boxes Hall) as Hlen.
  destruct (decide (boxes = [])) as [->|Hne]; [reflexivity|].
  rewrite (as_tensor_rows_of_4 boxes Hne Hall).
  destruct (boxes_fit_int64 boxes); [|done].
  change (reshape_rows_of_4
            {| shape := [Z.of_nat (length boxes); 4];
               elements := concat boxes |}
          = Ok {| shape := [Z.of_nat (length boxes); 4];
                  elements := concat boxes |}).
  unfold reshape_rows_of_4. cbn [elements]. rewrite Hlen.
  rewrite decide_True by (rewrite Z.mul_comm; apply Z_mod_mult).
  do 2 f_equal. f_equal. rewrite Z.mul_comm. apply Z_div_mult. lia.
Qed.

Lemma remapped_labels_fit (labels : list Z) :
  Forall (λ c, 0 ≤ c < 20) labels →
  torch_tensor ((λ c, c + 1) <$> labels)
  = Ok (tensor_of_list ((λ c, c + 1) <$> labels)).
Proof.
  intros Hall. unfold torch_tensor.
  assert (Hfit : forallb in_int64 ((λ c, c + 1) <$> labels) = true).
  { apply forallb_forall. intros k Hk%list_elem_of_In.
    apply list_elem_of_fmap in Hk as (c & -> & Hc).
    rewrite Forall_forall in Hall. specialize (Hall c Hc).
    unfold in_int64. apply andb_true_intro. split.
    - apply Z.leb_le. lia.
    - apply Z.ltb_lt. lia. }
  by rewrite Hfit.
Qed.

Lemma make_target_well_formed (ds : PascalVOC) (img : image) (ann : annotation) :
  json_category_id_to_contiguous_id ds = make_json_category_id_to_contiguous_id →
  Forall (λ b, length b = 4%nat) (ann_boxes ann) →
  Forall (λ c, 0 ≤ c < 20) (ann_labels ann) →
  make_target ds img ann =
    if boxes_fit_int64 (ann_boxes ann) then Ok (target_of_record img ann)
    else Raise RuntimeError.
Proof.
  intros Hmap Hboxes Hlabels. unfold make_target.
  pose proof (boxes_tensor _ Hboxes) as Ht.
  destruct (as_tensor (ann_boxes ann)) as [t|e]; simpl in Ht |- *.
  - rewrite Ht. destruct (boxes_fit_int64 (ann_boxes ann)); [|done]. simpl.
    rewrite Hmap, (remap_labels _ Hlabels). simpl.
    by rewrite (remapped_labels_fit _ Hlabels).
  - destruct (boxes_fit_int64 (ann_boxes ann)); [done|].
    by injection Ht as ->.
Qed.

Lemma box_of_length (obj : pyval) (box : list Z) :
  box_of obj = Ok box → length box = 4%nat.
Proof.
  unfold box_of.
  intros (a & _ & (b & _ & (c & _ & (d & _ & [= <-])%res_bind_Ok)
    %res_bind_Ok)%res_bind_Ok)%res_bind_Ok.
  reflexivity.
Qed.

Lemma label_of_bounds (obj : pyval) (label : Z) :
  label_of obj = Ok label → 0 ≤ label < 20.
Proof.
  unfold label_of. intros (name & _ & Hidx)%res_bind_Ok.
  apply tuple_index_from_bounds in Hidx as [Hb _]. simpl in Hb. lia.
Qed.

(** Records derived from annotation files have boxes of four coordinates and
    labels that are vocabulary positions. *)
Lemma annotation_of_xml_well_formed (x : xml) (ann : annotation) :
  annotation_of_xml x = Ok ann →
  Forall (λ b, length b = 4%nat) (ann_boxes ann)
  ∧ Forall (λ c, 0 ≤ c < 20) (ann_labels ann).
Proof.
  intros (data & _ & _ & Hmake)%annotation_of_xml_Ok.
  apply make_annotation_Ok in Hmake as (objs & _ & _ & Hb & Hl & _).
  split.
  - eapply Forall2_Forall_r; [exact Hb|].
    apply Forall_forall. intros obj _ box. apply box_of_length.
  - eapply Forall2_Forall_r; [exact Hl|].
    apply Forall_forall. intros obj _ label. apply label_of_bounds.
Qed.

Lemma py_list_getitem_elem_of {A} (l : list A) (index : Z) (x : A) :
  py_list_getitem l index = Ok x → x ∈ l.
Proof.
  unfold py_list_getitem. case_decide; [|done].
  destruct (l !! _) as [y|] eqn:Hy; [|done].
  intros [= <-]. by eapply list_elem_of_lookup_2.
Qed.

(** In a constructed dataset, once the identifier is resolved and its image
    loaded, the accessor either raises at [torch.as_tensor], when a stored
    coordinate does not fit 64 bits, or reaches the transforms with the
    clipped target of the record. *)
Lemma getitem_built (fs0 fs : voc_files) (t : option transform)
    (ds : PascalVOC) (index : Z) (img_id : string) (img : image) :
  __init__ fs0 t = Ok ds →
  py_list_getitem (ids ds) index = Ok img_id →
  image_file fs img_id = Ok img →
  ∃ ann,
    anns ds !! img_id = Some ann
    ∧ Forall (λ c, 0 ≤ c < 20) (ann_labels ann)
    ∧ __getitem__ ds fs index
      = if boxes_fit_int64 (ann_boxes ann) then
          apply_transforms ds img
            (clip_to_image (target_of_record img ann) true) index
        else Raise RuntimeError.
Proof.
  intros Hinit Hget Himg.
  pose proof (py_list_getitem_elem_of _ _ _ Hget) as Hin.
  destruct (init_anns _ _ _ _ Hinit Hin) as (x & ann & _ & Hann & Hrec).
  apply annotation_of_xml_well_formed in Hann as [Hboxes Hlabels].
  pose proof Hinit as (content & anns & _ & _ & Hds)%init_Ok.
  assert (Hj : json_category_id_to_contiguous_id ds
               = make_json_category_id_to_contiguous_id) by (by rewrite Hds).
  pose proof (make_target_well_formed ds img ann Hj Hboxes Hlabels) as Htarget.
  exists ann. split; [exact Hrec|]. split; [exact Hlabels|].
  unfold __getitem__, dict_getitem. rewrite Hget. simpl. rewrite Himg. simpl.
  rewrite Hrec. simpl. unfold getitem_body. rewrite Htarget.
  by destruct (boxes_fit_int64 (ann_boxes ann)).
Qed.

(** C5: in a constructed dataset, (1) every raw index [c] in [0..19] is
    mapped by [json_category_id_to_contiguous_id] to [c + 1], and [c + 1] is
    mapped back to [c] by [contiguous_category_id_to_json_id]; (2) the first
    mapping has no other key, and (3) the second has no key outside
    [1..20], so that each contiguous id is the image of exactly one raw
    index; (4) when [__getitem__] has resolved its index and loaded the
    image, the record it finds has its labels in [0..19], and either
    [torch.as_tensor] raises [RuntimeError] because a stored coordinate does
    not fit 64 bits, or the target that is clipped and handed on carries as
    its [labels] field the raw labels of the record, each increased by 1,
    in order. *)
Theorem C5_id_mappings_inverse_and_labels_remapped
    (fs : voc_files) (t : option transform) (ds : PascalVOC) :
  __init__ fs t = Ok ds →
  (∀ c, 0 ≤ c < 20 →
     json_category_id_to_contiguous_id ds !! c = Some (c + 1)
     ∧ contiguous_category_id_to_json_id ds !! (c + 1) = Some c)
  ∧ (∀ c k, json_category_id_to_contiguous_id ds !! c = Some k →
       0 ≤ c < 20 ∧ k = c + 1)
  ∧ (∀ k c, contiguous_category_id_to_json_id ds !! k = Some c →
       1 ≤ k ≤ 20 ∧ c = k - 1)
  ∧ (∀ fs' index img_id img,
       py_list_getitem (ids ds) index = Ok img_id →
       image_file fs' img_id = Ok img →
       ∃ ann,
         anns ds !! img_id = Some ann
         ∧ Forall (λ c, 0 ≤ c < 20) (ann_labels ann)
         ∧ extra_fields (target_of_record img ann) !! "labels"
           = Some (tensor_of_list ((λ c, c + 1) <$> ann_labels ann))
         ∧ __getitem__ ds fs' index
           = if boxes_fit_int64 (ann_boxes ann) then
               apply_transforms ds img
                 (clip_to_image (target_of_record img ann) true) index
             else Raise RuntimeError).
Proof.
  intros Hinit.
  pose proof Hinit as (content & anns & _ & _ & Hds)%init_Ok.
  assert (Hj : json_category_id_to_contiguous_id ds
               = make_json_category_id_to_contiguous_id) by (by rewrite Hds).
  assert (Hc : contiguous_category_id_to_json_id ds
               = make_contiguous_category_id_to_json_id
                   make_json_category_id_to_contiguous_id) by (by rewrite Hds).
  rewrite Hj, Hc. split; [|split; [|split]].
  - intros c Hrange. split.
    + by apply json_to_contiguous_lookup.
    + by apply contiguous_to_json_lookup.
  - apply json_to_contiguous_lookup_inv.
  - intros k c Hk%contiguous_to_json_lookup_inv.
    apply json_to_contiguous_lookup_inv in Hk. lia.
  - intros fs' index img_id img Hget Himg.
    destruct (getitem_built fs fs' t ds index img_id img Hinit Hget Himg)
      as (ann & Hann & Hlabels & Hitem).
    exists ann. split; [exact Hann|]. split; [exact Hlabels|].
    split; [|exact Hitem].
    unfold target_of_record, add_field. simpl. by rewrite lookup_insert_eq.
Qed.

Lemma C5_id_mappings_inverse_and_labels_remapped_witness :
  json_category_id_to_contiguous_id trainval_dataset !! 6 = Some 7
  ∧ contiguous_category_id_to_json_id trainval_dataset !! 7 = Some 6.
Proof.
  destruct (C5_id_mappings_inverse_and_labels_remapped
              trainval_files None trainval_dataset) as (Hmap & _).
  - vm_compute. reflexivity.
  - apply (Hmap 6). lia.
Defined.

(** ** Negative and out-of-range indices *)

(** C9: for a dataset with [n] samples and an index in [[-n, -1]], the list
    indexing of both accessors resolves to the identifier at position
    [n + index]; [get_img_info] returns what it returns at [n + index];
    [__getitem__] returns the image and target it returns at [n + index],
    together with the index it was given; when the dataset was constructed
    by [__init__], [get_img_info] succeeds and, the image being loadable
    and no transforms being configured, [__getitem__] returns the image,
    the clipped target of the identifier's record and the index, unless a
    stored coordinate does not fit 64 bits, in which case
    [torch.as_tensor] raises [RuntimeError]. The list indexing succeeds
    for every index in [[-n, n)]; for an index below [-n] or at least
    [n], both accessors raise [IndexError]. *)
Theorem C9_negative_index_counts_from_end
    (ds : PascalVOC) (fs : voc_files) (index : Z) :
  (- __len__ ds ≤ index < 0 →
     ∃ img_id,
       ids ds !! Z.to_nat (__len__ ds + index) = Some img_id
       ∧ py_list_getitem (ids ds) index = Ok img_id
       ∧ get_img_info ds index = get_img_info ds (__len__ ds + index)
       ∧ __getitem__ ds fs index
         = with_index index <$> __getitem__ ds fs (__len__ ds + index)
       ∧ (∀ fs0 t, __init__ fs0 t = Ok ds →
            is_Ok (get_img_info ds index)
            ∧ ∀ img, image_file fs img_id = Ok img →
                     transforms ds = None →
                     ∃ ann,
                       anns ds !! img_id = Some ann
                       ∧ __getitem__ ds fs index
                         = if boxes_fit_int64 (ann_boxes ann) then
                             Ok (img,
                                 clip_to_image (target_of_record img ann) true,
                                 index)
                           else Raise RuntimeError))
  ∧ (- __len__ ds ≤ index < __len__ ds →
     is_Ok (py_list_getitem (ids ds) index))
  ∧ (index < - __len__ ds ∨ __len__ ds ≤ index →
     get_img_info ds index = Raise IndexError
     ∧ __getitem__ ds fs index = Raise IndexError).
Proof.
  unfold __len__. split; [|split].
  - intros Hi.
    pose proof (py_list_getitem_negative (ids ds) index Hi) as Hneg.
    destruct (py_list_getitem_nonneg (ids ds)
                (Z.of_nat (length (ids ds)) + index)) as (img_id & Hlook & Hget);
      [lia|].
    exists img_id. split; [exact Hlook|].
    split; [congruence|].
    split; [unfold get_img_info; by rewrite Hneg|].
    split.
    + unfold __getitem__. rewrite Hneg, Hget. simpl.
      destruct (image_file fs img_id) as [img|e]; [|done]. simpl.
      destruct (dict_getitem (anns ds) img_id) as [ann|e]; [|done]. simpl.
      apply getitem_body_with_index.
    + intros fs0 t Hinit. split.
      * destruct (get_img_info_in_range fs0 t ds
                    (Z.of_nat (length (ids ds)) + index) Hinit)
          as (img_id' & x & ann & _ & _ & _ & _ & _ & Hinfo);
          [unfold __len__; lia|].
        exists (ann_size ann). unfold get_img_info in *. by rewrite Hneg.
      * intros img Himg Hnone.
        destruct (getitem_built fs0 fs t ds index img_id img Hinit)
          as (ann & Hann & _ & Hitem); [congruence | done |].
        exists ann. split; [exact Hann|]. rewrite Hitem.
        unfold apply_transforms. by rewrite Hnone.
  - intros Hi. destruct (decide (index < 0)) as [Hneg|Hpos].
    + rewrite py_list_getitem_negative by lia.
      destruct (py_list_getitem_nonneg (ids ds)
                  (Z.of_nat (length (ids ds)) + index)) as (x & _ & ->);
        [lia | by eexists].
    + destruct (py_list_getitem_nonneg (ids ds) index) as (x & _ & ->);
        [lia | by eexists].
  - intros Hi.
    pose proof (py_list_getitem_out_of_range (ids ds) index Hi) as Hout.
    unfold get_img_info, __getitem__. by rewrite Hout.
Qed.

Lemma C9_negative_index_counts_from_end_witness :
  get_img_info trainval_dataset (-1) = get_img_info trainval_dataset 1
  ∧ __getitem__ trainval_dataset trainval_files 2 = Raise IndexError.
Proof.
  destruct (C9_negative_index_counts_from_end
              trainval_dataset trainval_files (-1)) as [Hneg _].
  destruct (C9_negative_index_counts_from_end
              trainval_dataset trainval_files 2) as (_ & _ & Hout).
  split.
  - destruct Hneg as (img_id & _ & _ & Hinfo & _).
    + vm_compute. split; [discriminate | reflexivity].
    + exact Hinfo.
  - destruct Hout as [_ Hget].
    + right. vm_compute. discriminate.
    + exact Hget.
Defined.

(** ** The definitions at work *)

Example strip_line : strip (" 0001 " +:+ newline) = "0001".
Proof. reflexivity. Qed.

Example readlines_keeps_line_ends :
  readlines ("a" +:+ newline +:+ newline +:+ "b")
  = ["a" +:+ newline; newline; "b"].
Proof. reflexivity. Qed.

Example manifest_ids_keeps_duplicates :
  manifest_ids ("b" +:+ newline +:+ "a" +:+ newline +:+ "b" +:+ newline)
  = ["a"; "b"; "b"].
Proof. vm_compute. reflexivity. Qed.

Example int_of_string_examples :
  int_of_string " 12 " = Some 12
  ∧ int_of_string "-3" = Some (-3)
  ∧ int_of_string "1_0" = Some 10
  ∧ int_of_string "1.0" = None
  ∧ int_of_string "" = None.
Proof. repeat split; reflexivity. Qed.

(** The first sample of the example split: one box for the car, with the
    contiguous id of [car]; the difficult dog is left out. *)
Example getitem_first_sample :
  ∃ target,
    __getitem__ trainval_dataset trainval_files 0
    = Ok ({| image_size := (100, 100) |}, target, 0)
    ∧ bbox target = {| shape := [1; 4]; elements := [10; 20; 30; 40] |}
    ∧ mode target = "xyxy"
    ∧ extra_fields target !! "labels" = Some (tensor_of_list [7]).
Proof.
  eexists. split; [vm_compute; reflexivity|].
  repeat split; vm_compute; reflexivity.
Qed.

(** * Further properties of the parser, the builder and the accessors *)

(** ** The parser *)

Lemma filter_nonempty_iff {A} (P : A → Prop) `{∀ x, Decision (P x)}
    (l : list A) :
  filter P l ≠ [] ↔ ∃ x, x ∈ l ∧ P x.
Proof.
  split.
  - destruct (filter P l) as [|x l'] eqn:Hf; [done|]. intros _.
    assert (Hx : x ∈ filter P l) by (rewrite Hf; left).
    apply list_elem_of_filter in Hx as [HP Hin]. by exists x.
  - intros (x & Hin & HP) Hnil.
    assert (Hx : x ∈ filter P l) by (by apply list_elem_of_filter).
    rewrite Hnil in Hx. by apply elem_of_nil in Hx.
Qed.

Lemma last_is_Some {A} (l : list A) : is_Some (last l) ↔ l ≠ [].
Proof.
  destruct (last l) as [x|] eqn:Hl.
  - split; [|by eexists]. intros _ ->. done.
  - apply last_None in Hl as ->. split; [by intros [? ?] | done].
Qed.

(** The entry of an element: its text when it has no child, a dictionary
    when it has some. *)
Lemma value_of_leaf (tag : string) (text : option string) :
  value_of (Element tag text []) = xml_text (Element tag text []).
Proof.
  unfold value_of, child_entry. rewrite parse_unfold. simpl.
  by rewrite lookup_singleton_eq.
Qed.

Lemma value_of_node (tag : string) (text : option string) (children : list xml) :
  children ≠ [] →
  ∃ result, value_of (Element tag text children) = PyDict result
            ∧ parse_loop_post children result.
Proof.
  intros Hne. destruct (parse_node tag text children Hne) as (result & Hp & Hpost).
  exists result. split; [|done].
  unfold value_of, child_entry. rewrite Hp. simpl.
  by rewrite lookup_singleton_eq.
Qed.

(** X1: on every element tree the parser returns, without raising, a
    dictionary with the single key [xml.tag]; the value under it is the
    element's text ([None] when it has none) for an element without
    children, and a dictionary for an element with children, whose own text
    is dropped; it is never a list. *)
Theorem X1_parser_never_raises_single_key (x : xml) :
  ∃ v,
    _recursive_parse_xml_to_dict x = Ok (PyDict {[ xml_tag x := v ]})
    ∧ ¬ is_list v
    ∧ (xml_children x = [] → v = xml_text x)
    ∧ (xml_children x ≠ [] → ∃ result, v = PyDict result).
Proof.
  exists (value_of x). split; [apply parse_value_of|].
  split; [apply value_of_not_list|].
  destruct x as [tag text children]. simpl. split.
  - intros ->. apply value_of_leaf.
  - intros Hne. destruct (value_of_node tag text children Hne) as (r & Hr & _).
    by exists r.
Qed.

(** X2: the dictionary built for an element with children has exactly the
    tags of its children as keys; whenever the key [object] is present it
    holds a list with one entry per child tagged [object], so a single
    [object] child gives a one-element list, not a bare entry. *)
Theorem X2_node_keys_are_child_tags
    (tag : string) (text : option string) (children : list xml) :
  children ≠ [] →
  ∃ result,
    _recursive_parse_xml_to_dict (Element tag text children)
      = Ok (PyDict {[ tag := PyDict result ]})
    ∧ (∀ k, is_Some (result !! k) ↔ ∃ c, c ∈ children ∧ xml_tag c = k)
    ∧ (∀ v, result !! "object" = Some v →
         v = PyList (value_of <$> objects_of children)
         ∧ (1 ≤ length (objects_of children))%nat).
Proof.
  intros Hne.
  destruct (parse_node tag text children Hne) as (result & Hp & Hobj & Hother).
  exists result. split; [exact Hp|]. split.
  - intros k. rewrite <- (filter_nonempty_iff (λ c, xml_tag c = k)).
    destruct (decide (k = "object")) as [->|Hk].
    + rewrite Hobj. unfold objects_of.
      destruct (filter _ children); split; try done; by intros [? ?].
    + rewrite (Hother k Hk), <- last_is_Some. unfold last_tagged.
      by rewrite fmap_is_Some.
  - intros v. rewrite Hobj. destruct (objects_of children) as [|o os] eqn:Ho;
      [done|].
    intros [= <-]. split; [done|]. simpl. lia.
Qed.

Lemma X2_node_keys_are_child_tags_witness :
  ∃ result,
    _recursive_parse_xml_to_dict annotation_0002
      = Ok (PyDict {[ "annotation" := PyDict result ]})
    ∧ result !! "object"
      = Some (PyList [value_of (object_xml "person" "1" "1" "2" "3" "4")]).
Proof.
  destruct (X2_node_keys_are_child_tags "annotation" None
              [ leaf "filename" "0002.jpg"; size_xml "64" "48";
                object_xml "person" "1" "1" "2" "3" "4" ])
    as (result & Hp & Hkeys & Hobj).
  - discriminate.
  - exists result. split; [exact Hp|].
    destruct (proj2 (Hkeys "object")) as [v Hv].
    + eexists. split; [right; right; left | reflexivity].
    + rewrite Hv. f_equal. by destruct (Hobj v Hv) as [-> _].
Defined.

(** X3: for an element with children, what the result holds under each key
    depends on the children only through the sequence of those tagged
    [object] and, for every other tag, the last child carrying it: two
    child lists that agree on these give dictionaries with the same keys
    and the same value under every key (they compare equal), whatever the
    element's own text and the overwritten siblings are. The order in which
    a dictionary lists its keys is not part of the statement. *)
Theorem X3_parser_entries_determined_by_objects_and_last_tagged
    (tag : string) (text text' : option string) (children children' : list xml) :
  children ≠ [] →
  children' ≠ [] →
  objects_of children = objects_of children' →
  (∀ k, k ≠ "object" → last_tagged k children = last_tagged k children') →
  ∃ result result',
    _recursive_parse_xml_to_dict (Element tag text children)
      = Ok (PyDict {[ tag := PyDict result ]})
    ∧ _recursive_parse_xml_to_dict (Element tag text' children')
      = Ok (PyDict {[ tag := PyDict result' ]})
    ∧ ∀ k, result !! k = result' !! k.
Proof.
  intros Hne Hne' Hobjs Hlast.
  destruct (parse_node tag text children Hne) as (r & Hp & Hobj & Hother).
  destruct (parse_node tag text' children' Hne') as (r' & Hp' & Hobj' & Hother').
  exists r, r'. split; [exact Hp|]. split; [exact Hp'|]. intros k.
  destruct (decide (k = "object")) as [->|Hk].
  - by rewrite Hobj, Hobj', Hobjs.
  - by rewrite (Hother k Hk), (Hother' k Hk), (Hlast k Hk).
Qed.

Lemma X3_parser_entries_determined_by_objects_and_last_tagged_witness :
  ∃ result result',
    _recursive_parse_xml_to_dict
      (Element "size" (Some "text")
         [leaf "width" "1"; leaf "height" "2"; leaf "width" "3"])
      = Ok (PyDict {[ "size" := PyDict result ]})
    ∧ _recursive_parse_xml_to_dict
        (Element "size" None [leaf "width" "3"; leaf "height" "2"])
      = Ok (PyDict {[ "size" := PyDict result' ]})
    ∧ result !! "width" = result' !! "width".
Proof.
  destruct (X3_parser_entries_determined_by_objects_and_last_tagged
              "size" (Some "text") None
              [leaf "width" "1"; leaf "height" "2"; leaf "width" "3"]
              [leaf "width" "3"; leaf "height" "2"])
    as (result & result' & Hp & Hp' & Hkeys).
  - discriminate.
  - discriminate.
  - reflexivity.
  - intros k Hk. unfold last_tagged.
    destruct (decide (k = "width")) as [->|Hw]; [reflexivity|].
    destruct (decide (k = "height")) as [->|Hh]; [reflexivity|].
    rewrite !filter_cons_False by (simpl; congruence). reflexivity.
  - exists result, result'. split; [exact Hp|]. split; [exact Hp'|].
    apply Hkeys.
Defined.

(** ** The builder *)

Lemma list_comp_skip_false {A B} (cond : A → res bool) (f : A → res B)
    (l : list A) :
  list_comp cond f l
  = list_comp cond f (filter (λ x, cond x ≠ Ok false) l).
Proof.
  induction l as [|x l IH]; [done|].
  destruct (cond x) as [[]|e] eqn:Hc.
  - rewrite filter_cons_True by (by rewrite Hc). simpl. rewrite Hc. simpl.
    by rewrite IH.
  - rewrite filter_cons_False by (rewrite Hc; by intros []).
    simpl. by rewrite Hc.
  - rewrite filter_cons_True by (by rewrite Hc). simpl. by rewrite Hc.
Qed.

Lemma not_difficult_false (obj : pyval) :
  not_difficult obj = Ok false ↔ ∃ n, difficult_flag obj = Ok n ∧ n ≠ 0.
Proof.
  unfold not_difficult. destruct (difficult_flag obj) as [n|e]; simpl.
  - case_bool_decide; split; try done.
    + intros (m & [= <-] & Hm). done.
    + intros _. by exists n.
  - split; [done | by intros (? & ? & _)].
Qed.

(** X4: an object whose [difficult] text parses to a nonzero integer is
    skipped before its [name] and [bndbox] are looked at: the builder
    returns the same record, or raises the same exception, as for the data
    with these objects removed, whatever else they contain. *)
Theorem X4_difficult_objects_are_skipped_unexamined
    (data data' : pyval) (objs : list pyval) :
  data_objects data = Ok objs →
  data_objects data'
    = Ok (filter (λ obj, not_difficult obj ≠ Ok false) objs) →
  py_getitem data' "size" = py_getitem data "size" →
  make_annotation data' = make_annotation data
  ∧ ∀ obj, not_difficult obj = Ok false
           ↔ ∃ n, difficult_flag obj = Ok n ∧ n ≠ 0.
Proof.
  intros Hobjs Hobjs' Hsize. split; [|apply not_difficult_false].
  unfold make_annotation. rewrite Hobjs, Hobjs', Hsize. simpl.
  by rewrite <- !list_comp_skip_false.
Qed.

Lemma X4_difficult_objects_are_skipped_unexamined_witness :
  make_annotation (value_of annotation_0006)
  = make_annotation (value_of annotation_0005).
Proof.
  apply (X4_difficult_objects_are_skipped_unexamined
           (value_of annotation_0005) (value_of annotation_0006)
           [ value_of (object_xml "car" "0" "10" "20" "30" "40");
             value_of (bare_object_xml "unicorn" "1") ]).
  - vm_compute. reflexivity.
  - vm_compute. reflexivity.
  - vm_compute. reflexivity.
Defined.

(** A constructed dataset has gone through the record construction of every
    identifier of the manifest. *)
Lemma init_Ok_make_annotation (fs : voc_files) (t : option transform)
    (ds : PascalVOC) (content img_id : string) (x : xml) (data : pyval) :
  __init__ fs t = Ok ds →
  split_file fs = Ok content →
  img_id ∈ manifest_ids content →
  annotation_file fs img_id = Ok x →
  _recursive_parse_xml_to_dict x = Ok (PyDict {[ "annotation" := data ]}) →
  ∃ ann, make_annotation data = Ok ann.
Proof.
  intros Hinit Hsplit Hid Hx Hparse.
  pose proof Hinit as (content' & anns & Hsplit' & _ & Hds)%init_Ok.
  assert (Hin : img_id ∈ ids ds) by (rewrite Hds; simpl; congruence).
  destruct (init_anns _ _ _ _ Hinit Hin) as (x' & ann & Hx' & Hann & _).
  assert (x' = x) as -> by congruence.
  apply annotation_of_xml_Ok in Hann as (data' & Hparse' & _ & Hmake).
  assert (Heq : ({[ "annotation" := data' ]} : gmap string pyval)
                = {[ "annotation" := data ]}) by congruence.
  apply (f_equal (λ d : gmap string pyval, d !! "annotation")) in Heq.
  rewrite !lookup_singleton_eq in Heq. exists ann. congruence.
Qed.

Lemma is_Raise_not_Ok {A} (r : res A) (a : A) : is_Raise r → r ≠ Ok a.
Proof. intros [e ->]. done. Qed.

(** X5: the construction of the dataset raises as soon as the annotation
    file of some identifier of the manifest has no [object] list or no
    [size], holds an object whose [difficult] entry is missing or not an
    integer, or holds an object with flag 0 whose box or label cannot be
    built (a missing [bndbox], [name] or coordinate, a coordinate that is
    not an integer, an unknown name): no such entry is skipped. *)
Theorem X5_schema_errors_are_fatal
    (fs : voc_files) (t : option transform) (content img_id : string)
    (x : xml) (data : pyval) :
  split_file fs = Ok content →
  img_id ∈ manifest_ids content →
  annotation_file fs img_id = Ok x →
  _recursive_parse_xml_to_dict x = Ok (PyDict {[ "annotation" := data ]}) →
  is_Raise (data_objects data)
  ∨ is_Raise (py_getitem data "size")
  ∨ (∃ objs obj,
       data_objects data = Ok objs ∧ obj ∈ objs
       ∧ (is_Raise (difficult_flag obj)
          ∨ difficult_flag obj = Ok 0
            ∧ (is_Raise (box_of obj) ∨ is_Raise (label_of obj)))) →
  is_Raise (__init__ fs t).
Proof.
  intros Hsplit Hid Hx Hparse Hbad.
  destruct (__init__ fs t) as [ds|e] eqn:Hinit; [|by eexists]. exfalso.
  destruct (init_Ok_make_annotation _ _ _ _ _ _ _ Hinit Hsplit Hid Hx Hparse)
    as [ann Hmake].
  apply make_annotation_Ok in Hmake
    as (objs' & Hobjs' & Hflags & Hb & Hl & Hsize).
  destruct Hbad as [Hbad|[Hbad|(objs & obj & Hobjs & Hin & Hbad)]].
  - by eapply is_Raise_not_Ok.
  - by eapply is_Raise_not_Ok.
  - assert (objs' = objs) as -> by congruence.
    destruct Hbad as [Hflag|[Hflag Hbad]].
    + rewrite Forall_forall in Hflags. destruct (Hflags obj Hin) as [n Hn].
      by eapply is_Raise_not_Ok.
    + assert (Hkept : obj ∈ filter (λ o, difficult_flag o = Ok 0) objs).
      { by apply list_elem_of_filter. }
      apply list_elem_of_lookup in Hkept as [i Hi].
      destruct (Forall2_lookup_l _ _ _ _ _ Hb Hi) as (box & _ & Hbox).
      destruct (Forall2_lookup_l _ _ _ _ _ Hl Hi) as (label & _ & Hlabel).
      destruct Hbad as [Hbad|Hbad]; by eapply is_Raise_not_Ok.
Qed.

Lemma X5_schema_errors_are_fatal_witness :
  is_Raise (__init__ (more_files ("0006" +:+ newline +:+ "0007")) None).
Proof.
  apply (X5_schema_errors_are_fatal _ None
           ("0006" +:+ newline +:+ "0007") "0007" annotation_0007
           (value_of annotation_0007)).
  - reflexivity.
  - apply (bool_decide_unpack _). vm_compute. exact I.
  - reflexivity.
  - apply parse_value_of.
  - right. right.
    exists [value_of (bare_object_xml "car" "no")],
           (value_of (bare_object_xml "car" "no")).
    split; [vm_compute; reflexivity|]. split; [left|].
    left. exists ValueError. vm_compute. reflexivity.
Defined.

Lemma load_annotation_Ok (fs : voc_files) (img_id : string)
    (anns : gmap string annotation) :
  is_Ok (annotation_file fs img_id ≫= annotation_of_xml) →
  is_Ok (load_annotation fs img_id anns).
Proof.
  intros [ann Hann]. apply res_bind_Ok in Hann as (x & Hx & Hann).
  unfold load_annotation. rewrite Hx. simpl. rewrite Hann. by eexists.
Qed.

Lemma load_annotation_Raise (fs : voc_files) (img_id : string)
    (anns : gmap string annotation) (e : exn) :
  annotation_file fs img_id ≫= annotation_of_xml = Raise e →
  load_annotation fs img_id anns = Raise e.
Proof.
  unfold load_annotation. destruct (annotation_file fs img_id) as [x|e'];
    simpl; [|intros [= ->]; reflexivity].
  destruct (annotation_of_xml x); simpl; [done | intros [= ->]; reflexivity].
Qed.

Lemma load_annotations_first_failure (fs : voc_files)
    (pre post : list string) (img_id : string) (e : exn)
    (anns : gmap string annotation) :
  Forall (λ i, is_Ok (annotation_file fs i ≫= annotation_of_xml)) pre →
  annotation_file fs img_id ≫= annotation_of_xml = Raise e →
  for_loop (load_annotation fs) (pre ++ img_id :: post) anns = Raise e.
Proof.
  intros Hpre Hfail. revert anns.
  induction Hpre as [|i pre Hi _ IH]; intros anns; simpl.
  - by rewrite (load_annotation_Raise _ _ _ _ Hfail).
  - destruct (load_annotation_Ok fs i anns Hi) as [anns' ->]. simpl.
    apply IH.
Qed.

(** X6: the annotation files are read in the sorted order of the
    identifiers, and the construction stops at the first one that fails:
    it raises the exception of the first identifier whose file cannot be
    read or turned into a record, whatever the later files hold. *)
Theorem X6_construction_raises_first_failure_in_sorted_order
    (fs : voc_files) (t : option transform) (content img_id : string)
    (pre post : list string) (e : exn) :
  split_file fs = Ok content →
  manifest_ids content = pre ++ img_id :: post →
  Forall (λ i, is_Ok (annotation_file fs i ≫= annotation_of_xml)) pre →
  annotation_file fs img_id ≫= annotation_of_xml = Raise e →
  __init__ fs t = Raise e.
Proof.
  intros Hsplit Hids Hpre Hfail. unfold __init__. rewrite Hsplit. simpl.
  rewrite Hids.
  by rewrite (load_annotations_first_failure fs pre post img_id e ∅ Hpre Hfail).
Qed.

Lemma X6_construction_raises_first_failure_in_sorted_order_witness :
  __init__ (more_files ("0007" +:+ newline +:+ "0008" +:+ newline
                        +:+ "0006")) None
  = Raise ValueError.
Proof.
  apply (X6_construction_raises_first_failure_in_sorted_order _ None
           ("0007" +:+ newline +:+ "0008" +:+ newline +:+ "0006")
           "0007" ["0006"] ["0008"] ValueError).
  - reflexivity.
  - vm_compute. reflexivity.
  - constructor; [|constructor]. eexists. vm_compute. reflexivity.
  - vm_compute. reflexivity.
Defined.

(** X7: turning a parsed file into a record raises [KeyError] when the root
    element is not tagged [annotation]; for a root tagged [annotation] it
    raises [TypeError] when the root has no child (its entry is text or
    [None], which cannot be subscripted) and [KeyError] when it has
    children none of which is tagged [object]. *)
Theorem X7_malformed_root_element (x : xml) :
  (xml_tag x ≠ "annotation" → annotation_of_xml x = Raise KeyError)
  ∧ (xml_tag x = "annotation" → xml_children x = [] →
     annotation_of_xml x = Raise TypeError)
  ∧ (xml_tag x = "annotation" → xml_children x ≠ [] →
     objects_of (xml_children x) = [] →
     annotation_of_xml x = Raise KeyError).
Proof.
  destruct x as [tag text children]. simpl. split; [|split].
  - intros Htag. unfold annotation_of_xml.
    rewrite (parse_value_of (Element tag text children)). simpl.
    by rewrite lookup_singleton_ne.
  - intros -> ->. unfold annotation_of_xml. rewrite parse_unfold. simpl.
    rewrite lookup_singleton_eq. destruct text; reflexivity.
  - intros -> Hne Hobjs. by apply annotation_without_object_KeyError.
Qed.

Lemma X7_malformed_root_element_witness :
  annotation_of_xml (size_xml "1" "2") = Raise KeyError
  ∧ annotation_of_xml (leaf "annotation" "text") = Raise TypeError
  ∧ annotation_of_xml annotation_0003 = Raise KeyError.
Proof.
  destruct (X7_malformed_root_element (size_xml "1" "2")) as (Hroot & _ & _).
  destruct (X7_malformed_root_element (leaf "annotation" "text"))
    as (_ & Hleaf & _).
  destruct (X7_malformed_root_element annotation_0003) as (_ & _ & Hnone).
  split; [|split].
  - apply Hroot. simpl. discriminate.
  - apply Hleaf; reflexivity.
  - apply Hnone; [reflexivity | simpl; discriminate | reflexivity].
Defined.

(** ** The tables of a constructed dataset *)

Lemma size_list_to_set_le (l : list string) :
  (base.size (list_to_set l : gset string) ≤ length l)%nat.
Proof.
  induction l as [|x l IH].
  - change (list_to_set [] : gset string) with (∅ : gset string).
    rewrite size_empty. simpl. lia.
  - change (list_to_set (x :: l) : gset string)
      with ({[x]} ∪ list_to_set l : gset string).
    rewrite size_union_alt, size_singleton.
    assert (Hle : (base.size (list_to_set l ∖ {[x]} : gset string)
                   ≤ base.size (list_to_set l : gset string))%nat).
    { apply subseteq_size. intros y Hy.
      by apply elem_of_difference in Hy as [? _]. }
    simpl. lia.
Qed.

Lemma init_anns_lookup (fs : voc_files) (t : option transform)
    (ds : PascalVOC) (img_id : string) :
  __init__ fs t = Ok ds →
  is_Some (anns ds !! img_id) ↔ img_id ∈ ids ds.
Proof.
  intros Hinit. split.
  - intros [ann Hann]. by destruct (init_anns_inv _ _ _ _ _ Hinit Hann).
  - intros Hin. destruct (init_anns _ _ _ _ Hinit Hin) as (x & ann & _ & _ & H).
    by exists ann.
Qed.

(** X8: in a constructed dataset the keys of the record table are exactly
    the identifiers of the manifest, so a repeated identifier shares one
    record and the table has at most as many records as there are samples
    (as many when no identifier is repeated); whatever identifier an index
    resolves to has a record, and [get_img_info] never raises [KeyError]. *)
Theorem X8_record_table_keys_are_the_identifiers
    (fs : voc_files) (t : option transform) (ds : PascalVOC) :
  __init__ fs t = Ok ds →
  dom (anns ds) = list_to_set (ids ds)
  ∧ (base.size (anns ds) ≤ length (ids ds))%nat
  ∧ (NoDup (ids ds) → base.size (anns ds) = length (ids ds))
  ∧ (∀ index img_id,
       py_list_getitem (ids ds) index = Ok img_id →
       is_Ok (dict_getitem (anns ds) img_id))
  ∧ ∀ index, get_img_info ds index ≠ Raise KeyError.
Proof.
  intros Hinit.
  assert (Hdom : dom (anns ds) = list_to_set (ids ds)).
  { apply set_eq. intros img_id.
    rewrite elem_of_dom, elem_of_list_to_set.
    apply (init_anns_lookup fs t ds img_id Hinit). }
  assert (Hres : ∀ index img_id,
            py_list_getitem (ids ds) index = Ok img_id →
            is_Ok (dict_getitem (anns ds) img_id)).
  { intros index img_id Hget%py_list_getitem_elem_of.
    apply (init_anns_lookup _ _ _ _ Hinit) in Hget as [ann Hann].
    exists ann. unfold dict_getitem. by rewrite Hann. }
  split; [exact Hdom|]. split; [|split; [|split; [exact Hres|]]].
  - rewrite <- size_dom, Hdom. apply size_list_to_set_le.
  - intros Hnd. rewrite <- size_dom, Hdom. by apply size_list_to_set.
  - intros index. unfold get_img_info.
    destruct (py_list_getitem (ids ds) index) as [img_id|e] eqn:Hget; simpl.
    + destruct (Hres index img_id Hget) as [ann ->]. done.
    + unfold py_list_getitem in Hget. case_decide; [|by injection Hget as <-].
      destruct (ids ds !! _); [done | by injection Hget as <-].
Qed.

Lemma X8_record_table_keys_are_the_identifiers_witness :
  dom (anns trainval_dataset) = list_to_set (ids trainval_dataset).
Proof.
  destruct (X8_record_table_keys_are_the_identifiers
              trainval_files None trainval_dataset) as [Hdom _].
  - vm_compute. reflexivity.
  - exact Hdom.
Defined.

(** X9: the reverse lookup table of a constructed dataset has exactly the
    keys [0 .. n-1], each mapped to the identifier at that position; unlike
    the list indexing of the accessors, it has no entry for a negative
    index. *)
Theorem X9_id_to_img_map_keys_are_the_positions
    (fs : voc_files) (t : option transform) (ds : PascalVOC) (i : Z) :
  __init__ fs t = Ok ds →
  id_to_img_map ds !! i
  = (if decide (0 ≤ i < __len__ ds) then ids ds !! Z.to_nat i else None)
  ∧ (- __len__ ds ≤ i < 0 →
     id_to_img_map ds !! i = None
     ∧ is_Ok (py_list_getitem (ids ds) i)).
Proof.
  intros (content & anns & _ & _ & ->)%init_Ok. unfold __len__. simpl.
  split; [apply dict_of_enumerate_lookup|].
  intros Hi. split.
  - rewrite dict_of_enumerate_lookup. by rewrite decide_False by lia.
  - rewrite py_list_getitem_negative by lia.
    destruct (py_list_getitem_nonneg (manifest_ids content)
                (Z.of_nat (length (manifest_ids content)) + i))
      as (x & _ & ->); [lia | by eexists].
Qed.

Lemma X9_id_to_img_map_keys_are_the_positions_witness :
  id_to_img_map trainval_dataset !! (-1) = None
  ∧ is_Ok (py_list_getitem (ids trainval_dataset) (-1)).
Proof.
  destruct (X9_id_to_img_map_keys_are_the_positions
              trainval_files None trainval_dataset (-1)) as [_ Hneg].
  - vm_compute. reflexivity.
  - apply Hneg. vm_compute. split; [discriminate | reflexivity].
Defined.

(** X11: the dataset depends on the manifest only through the multiset of
    its stripped lines: two manifests whose stripped lines are
    rearrangements of each other give the same identifier list, and, over
    the same annotation files, the same result of the construction. *)
Theorem X11_manifest_line_order_is_irrelevant
    (fs1 fs2 : voc_files) (t : option transform) (content1 content2 : string) :
  split_file fs1 = Ok content1 →
  split_file fs2 = Ok content2 →
  annotation_file fs1 = annotation_file fs2 →
  strip <$> readlines content1 ≡ₚ strip <$> readlines content2 →
  manifest_ids content1 = manifest_ids content2
  ∧ __init__ fs1 t = __init__ fs2 t.
Proof.
  intros H1 H2 Hfiles Hperm.
  assert (Hids : manifest_ids content1 = manifest_ids content2).
  { apply sorted_unique; [|apply sorted_StronglySorted].
    unfold manifest_ids. by rewrite sorted_Permutation. }
  split; [exact Hids|].
  assert (Hload : load_annotation fs1 = load_annotation fs2).
  { unfold load_annotation. by rewrite Hfiles. }
  unfold __init__. rewrite H1, H2. simpl. by rewrite Hids, Hload.
Qed.

Lemma X11_manifest_line_order_is_irrelevant_witness :
  __init__ trainval_files None
  = __init__ (example_files ("0001" +:+ newline +:+ " 0002")) None.
Proof.
  apply (X11_manifest_line_order_is_irrelevant _ _ None
           ("0002" +:+ newline +:+ "0001" +:+ newline)
           ("0001" +:+ newline +:+ " 0002")).
  - reflexivity.
  - reflexivity.
  - reflexivity.
  - vm_compute. apply perm_swap.
Defined.

(** X12: a label the builder emits decodes back to the object's name: when
    the label lookup returns [label], the object's [name] is a string, it
    is the entry of the vocabulary at position [label], with
    [0 ≤ label < 20], and it stands at no other position. *)
Theorem X12_label_decodes_to_name (obj : pyval) (label : Z) :
  label_of obj = Ok label →
  0 ≤ label < 20
  ∧ ∃ n, py_getitem obj "name" = Ok (PyStr n)
         ∧ VOC_BBOX_LABEL_NAMES !! Z.to_nat label = Some n
         ∧ ∀ k, VOC_BBOX_LABEL_NAMES !! k = Some n → k = Z.to_nat label.
Proof.
  intros Hlabel. split; [by eapply label_of_bounds|].
  unfold label_of in Hlabel.
  apply res_bind_Ok in Hlabel as (name & Hname & Hidx).
  apply tuple_index_from_bounds in Hidx as [_ (n & Hn & ->)].
  rewrite Z.sub_0_r in Hn. exists n. split; [done|]. split; [done|].
  intros k Hk.
  by apply (NoDup_lookup _ _ _ _ VOC_BBOX_LABEL_NAMES_NoDup Hk Hn).
Qed.

Lemma X12_label_decodes_to_name_witness :
  VOC_BBOX_LABEL_NAMES !! 6%nat = Some "car".
Proof.
  destruct (X12_label_decodes_to_name
              (value_of (object_xml "car" "0" "10" "20" "30" "40")) 6)
    as (_ & n & Hname & Hn & _).
  - vm_compute. reflexivity.
  - vm_compute in Hname. injection Hname as <-. exact Hn.
Defined.

(** ** Stored records and what the accessors make of them *)

Lemma rows_of_4_concat (boxes : list (list Z)) :
  Forall (λ b, length b = 4%nat) boxes →
  row_elements <$> rows_of_4 (concat boxes) = boxes.
Proof.
  induction 1 as [|b boxes Hb _ IH]; [done|].
  destruct b as [|x1 [|y1 [|x2 [|y2 [|? ?]]]]]; try done.
  simpl. f_equal. exact IH.
Qed.

(** X13: every record of a constructed dataset holds boxes of exactly four
    integers; when every coordinate fits 64 bits,
    [torch.as_tensor(boxes).reshape(-1, 4)] gives a tensor of shape
    ([len(boxes)], 4) whose rows are the boxes, in order; when some
    coordinate does not, which the builder accepts, it raises
    [RuntimeError]. *)
Theorem X13_stored_boxes_become_rows_of_the_tensor
    (fs : voc_files) (t : option transform) (ds : PascalVOC)
    (img_id : string) (ann : annotation) :
  __init__ fs t = Ok ds →
  anns ds !! img_id = Some ann →
  Forall (λ b, length b = 4%nat) (ann_boxes ann)
  ∧ (boxes_fit_int64 (ann_boxes ann) = true →
     ∃ tensor,
       as_tensor (ann_boxes ann) ≫= reshape_rows_of_4 = Ok tensor
       ∧ shape tensor = [Z.of_nat (length (ann_boxes ann)); 4]
       ∧ row_elements <$> rows_of_4 (elements tensor) = ann_boxes ann)
  ∧ (boxes_fit_int64 (ann_boxes ann) = false →
     as_tensor (ann_boxes ann) ≫= reshape_rows_of_4 = Raise RuntimeError).
Proof.
  intros Hinit Hann.
  destruct (init_anns_inv _ _ _ _ _ Hinit Hann) as (_ & x & _ & Hx).
  apply annotation_of_xml_well_formed in Hx as [Hboxes _].
  pose proof (boxes_tensor _ Hboxes) as Ht.
  split; [exact Hboxes|]. split.
  - intros Hfit. rewrite Hfit in Ht. eexists. split; [exact Ht|].
    split; [reflexivity|]. by apply rows_of_4_concat.
  - intros Hfit. by rewrite Hfit in Ht.
Qed.

Lemma X13_stored_boxes_become_rows_of_the_tensor_witness :
  ∃ tensor,
    as_tensor [[10; 20; 30; 40]] ≫= reshape_rows_of_4 = Ok tensor
    ∧ shape tensor = [1; 4]
    ∧ row_elements <$> rows_of_4 (elements tensor) = [[10; 20; 30; 40]].
Proof.
  destruct (X13_stored_boxes_become_rows_of_the_tensor
              trainval_files None trainval_dataset "0001"
              {| ann_boxes := [[10; 20; 30; 40]]; ann_labels := [6];
                 ann_size := value_of (size_xml "100" "100") |})
    as (_ & Hfit & _).
  - vm_compute. reflexivity.
  - vm_compute. reflexivity.
  - destruct Hfit as (tensor & Ht & Hshape & Hrows); [reflexivity|].
    exists tensor. split; [exact Ht|]. split; [exact Hshape | exact Hrows].
Defined.

(** X14: the construction never opens an image, so a dataset is constructed
    whether or not the images exist; for an index within range whose image
    cannot be opened, [__getitem__] raises the exception of the image
    loader, while [get_img_info] still returns the size. *)
Theorem X14_missing_image_fails_only_the_sample_accessor
    (fs fs' : voc_files) (t : option transform) (ds : PascalVOC) (i : Z) :
  __init__ fs t = Ok ds →
  0 ≤ i < __len__ ds →
  (∀ images,
     __init__ {| split_file := split_file fs;
                 annotation_file := annotation_file fs;
                 image_file := images |} t = Ok ds)
  ∧ ∃ img_id,
      py_list_getitem (ids ds) i = Ok img_id
      ∧ is_Ok (get_img_info ds i)
      ∧ ∀ e, image_file fs' img_id = Raise e →
             __getitem__ ds fs' i = Raise e.
Proof.
  intros Hinit Hi. split; [intros images; exact Hinit|].
  destruct (get_img_info_in_range _ _ _ _ Hinit Hi)
    as (img_id & x & ann & _ & Hget & _ & _ & _ & Hinfo).
  exists img_id. split; [exact Hget|]. split; [by eexists|].
  intros e Himg. unfold __getitem__. rewrite Hget. simpl. by rewrite Himg.
Qed.

Lemma X14_missing_image_fails_only_the_sample_accessor_witness :
  __getitem__ trainval_dataset
    (more_files ("0001" +:+ newline)) 0 = Raise FileNotFoundError
  ∧ is_Ok (get_img_info trainval_dataset 0).
Proof.
  destruct (X14_missing_image_fails_only_the_sample_accessor
              trainval_files (more_files ("0001" +:+ newline)) None
              trainval_dataset 0)
    as (_ & img_id & Hid & Hinfo & Hfail).
  - vm_compute. reflexivity.
  - vm_compute. split; [discriminate | reflexivity].
  - split; [|exact Hinfo]. apply Hfail. reflexivity.
Defined.

(** X15: in every record of a constructed dataset the box and the label at
    one position describe one object of the annotation file: the object at
    that position among those whose difficult flag is 0. A position has a
    box exactly when it has a label. *)
Theorem X15_box_and_label_at_one_position_share_their_object
    (fs : voc_files) (t : option transform) (ds : PascalVOC)
    (img_id : string) (ann : annotation) :
  __init__ fs t = Ok ds →
  anns ds !! img_id = Some ann →
  ∃ x data objs,
    annotation_file fs img_id = Ok x
    ∧ _recursive_parse_xml_to_dict x = Ok (PyDict {[ "annotation" := data ]})
    ∧ data_objects data = Ok objs
    ∧ ∀ i : nat,
        (is_Some (ann_boxes ann !! i) ↔ is_Some (ann_labels ann !! i))
        ∧ ∀ box label,
            ann_boxes ann !! i = Some box →
            ann_labels ann !! i = Some label →
            ∃ obj, filter (λ o, difficult_flag o = Ok 0) objs !! i = Some obj
                   ∧ box_of obj = Ok box
                   ∧ label_of obj = Ok label.
Proof.
  intros Hinit Hann.
  destruct (init_anns_inv _ _ _ _ _ Hinit Hann) as (_ & x & Hx & Hrec).
  apply annotation_of_xml_Ok in Hrec as (data & Hparse & _ & Hmake).
  apply make_annotation_Ok in Hmake as (objs & Hobjs & _ & Hb & Hl & _).
  exists x, data, objs. repeat split; try done.
  - intros [box Hbox]. destruct (Forall2_lookup_r _ _ _ _ _ Hb Hbox)
      as (obj & Hobj & _).
    destruct (Forall2_lookup_l _ _ _ _ _ Hl Hobj) as (label & Hlabel & _).
    by exists label.
  - intros [label Hlabel]. destruct (Forall2_lookup_r _ _ _ _ _ Hl Hlabel)
      as (obj & Hobj & _).
    destruct (Forall2_lookup_l _ _ _ _ _ Hb Hobj) as (box & Hbox & _).
    by exists box.
  - intros box label Hbox Hlabel.
    destruct (Forall2_lookup_r _ _ _ _ _ Hb Hbox) as (obj & Hobj & Hbo).
    destruct (Forall2_lookup_l _ _ _ _ _ Hl Hobj) as (label' & Hlabel' & Hlo).
    exists obj. repeat split; try done. congruence.
Qed.

Lemma X15_box_and_label_at_one_position_share_their_object_witness :
  ∃ obj, box_of obj = Ok [10; 20; 30; 40] ∧ label_of obj = Ok 6.
Proof.
  destruct (X15_box_and_label_at_one_position_share_their_object
              trainval_files None trainval_dataset "0001"
              {| ann_boxes := [[10; 20; 30; 40]]; ann_labels := [6];
                 ann_size := value_of (size_xml "100" "100") |})
    as (x & data & objs & _ & _ & _ & Hpos).
  - vm_compute. reflexivity.
  - vm_compute. reflexivity.
  - destruct (Hpos 0%nat) as [_ Hobj].
    destruct (Hobj [10; 20; 30; 40] 6) as (obj & _ & Hbox & Hlabel);
      [reflexivity | reflexivity |].
    exists obj. split; [exact Hbox | exact Hlabel].
Defined.

(** X17: the size returned by [get_img_info] is the entry of the last
    [size] child of the annotation file's root, as the parser left it: a
    child of [size] that is a leaf with text, such as [width] or [height],
    appears in it under its tag as that text, a string; nothing is
    converted to an integer. *)
Theorem X17_get_img_info_returns_the_parsed_size_as_text
    (fs : voc_files) (t : option transform) (ds : PascalVOC) (i : Z) :
  __init__ fs t = Ok ds →
  0 ≤ i < __len__ ds →
  ∃ img_id x sz,
    py_list_getitem (ids ds) i = Ok img_id
    ∧ annotation_file fs img_id = Ok x
    ∧ last_tagged "size" (xml_children x) = Some sz
    ∧ get_img_info ds i = Ok (value_of sz)
    ∧ ∀ k w,
        k ≠ "object" →
        last_tagged k (xml_children sz) = Some (Element k (Some w) []) →
        ∃ d, value_of sz = PyDict d ∧ d !! k = Some (PyStr w).
Proof.
  intros Hinit Hi.
  destruct (get_img_info_in_range _ _ _ _ Hinit Hi)
    as (img_id & x & ann & _ & Hget & Hx & Hann & _ & Hinfo).
  apply annotation_of_xml_Ok in Hann as (data & Hparse & Htag & Hmake).
  apply make_annotation_Ok in Hmake as (_ & _ & _ & _ & _ & Hsize).
  assert (Hdata : data = value_of x).
  { pose proof (parse_value_of x) as Hv. rewrite Htag in Hv.
    assert (Heq : ({[ "annotation" := data ]} : gmap string pyval)
                  = {[ "annotation" := value_of x ]}) by congruence.
    apply (f_equal (λ d : gmap string pyval, d !! "annotation")) in Heq.
    rewrite !lookup_singleton_eq in Heq. congruence. }
  destruct x as [tag text children]. simpl in *.
  destruct (decide (children = [])) as [->|Hne].
  { rewrite Hdata, value_of_leaf in Hsize. by destruct text. }
  destruct (value_of_node tag text children Hne) as (result & Hres & _ & Hother).
  rewrite Hdata, Hres in Hsize. simpl in Hsize.
  rewrite (Hother "size") in Hsize by done.
  destruct (last_tagged "size" children) as [sz|] eqn:Hsz; [|done].
  simpl in Hsize. injection Hsize as Hsize.
  exists img_id, (Element tag text children), sz. simpl.
  split; [exact Hget|]. split; [exact Hx|]. split; [exact Hsz|].
  split; [by rewrite Hinfo, Hsize|].
  intros k w Hk Hlast. destruct sz as [stag stext schildren]. simpl in Hlast.
  assert (Hsne : schildren ≠ []) by (by intros ->).
  destruct (value_of_node stag stext schildren Hsne) as (d & Hd & _ & Hdk).
  exists d. split; [exact Hd|].
  by rewrite (Hdk k Hk), Hlast; simpl; rewrite value_of_leaf.
Qed.

Lemma X17_get_img_info_returns_the_parsed_size_as_text_witness :
  ∃ d, get_img_info trainval_dataset 1 = Ok (PyDict d)
       ∧ d !! "width" = Some (PyStr "64").
Proof.
  destruct (X17_get_img_info_returns_the_parsed_size_as_text
              trainval_files None trainval_dataset 1)
    as (img_id & x & sz & Hid & Hx & Hsz & Hinfo & Htext).
  - vm_compute. reflexivity.
  - vm_compute. split; [discriminate | reflexivity].
  - vm_compute in Hid. injection Hid as <-.
    vm_compute in Hx. injection Hx as <-.
    vm_compute in Hsz. injection Hsz as <-.
    destruct (Htext "width" "64") as (d & Hd & Hw); [done | reflexivity |].
    exists d. split; [by rewrite Hinfo, Hd | exact Hw].
Defined.

(** ** Blank lines of the manifest *)

Lemma lstrip_blank (s : string) : is_blank s = true → lstrip s = "".
Proof.
  induction s as [|a s IH]; [done|]. simpl.
  intros [Ha Hs]%andb_prop. rewrite Ha. by apply IH.
Qed.

Lemma strip_blank (s : string) : is_blank s = true → strip s = "".
Proof. intros Hs. unfold strip. by rewrite (lstrip_blank s Hs). Qed.

Lemma string_le_empty (s : string) : String.le "" s.
Proof. by destruct s. Qed.

(** A least element of the input comes first in the sorted list. *)
Lemma sorted_head_least (l : list string) (x : string) :
  x ∈ l → (∀ y, String.le x y) → sorted l !! 0%nat = Some x.
Proof.
  intros Hin Hleast.
  pose proof (sorted_StronglySorted l) as Hsorted.
  rewrite <- (sorted_Permutation l) in Hin.
  destruct (sorted l) as [|h tl]; [by apply elem_of_nil in Hin|].
  simpl. f_equal. apply StronglySorted_cons in Hsorted as [Hh _].
  apply (anti_symm String.le); [|apply Hleast].
  apply elem_of_cons in Hin as [->|Hin]; [done|].
  rewrite Forall_forall in Hh. by apply Hh.
Qed.

(** X10: blank lines of the manifest are not skipped: if some line consists
    of whitespace only, the empty string is an identifier, and the first
    one of the sorted list; the construction then reads the annotation file
    of the empty identifier before any other, raises what reading it
    raises, and a dataset that is constructed resolves index 0 to the empty
    identifier. *)
Theorem X10_blank_manifest_line_gives_empty_identifier_first
    (fs : voc_files) (t : option transform) (content line : string) :
  split_file fs = Ok content →
  line ∈ readlines content →
  is_blank line = true →
  manifest_ids content !! 0%nat = Some ""
  ∧ (∀ e, annotation_file fs "" = Raise e → __init__ fs t = Raise e)
  ∧ (∀ ds, __init__ fs t = Ok ds → py_list_getitem (ids ds) 0 = Ok "").
Proof.
  intros Hsplit Hline Hblank.
  assert (Hfirst : manifest_ids content !! 0%nat = Some "").
  { apply sorted_head_least; [|apply string_le_empty].
    apply list_elem_of_fmap. exists line. by rewrite strip_blank. }
  split; [exact Hfirst|]. split.
  - intros e Hfile.
    destruct (manifest_ids content) as [|h tl] eqn:Hids; [done|].
    injection Hfirst as ->.
    unfold __init__. rewrite Hsplit. simpl. rewrite Hids.
    rewrite (load_annotations_first_failure fs [] tl "" e ∅); [done | done |].
    by rewrite Hfile.
  - intros ds (content' & anns & Hsplit' & _ & ->)%init_Ok. simpl.
    assert (content' = content) as -> by congruence.
    destruct (manifest_ids content) as [|h tl] eqn:Hids; [done|].
    by injection Hfirst as ->.
Qed.

Lemma X10_blank_manifest_line_gives_empty_identifier_first_witness :
  __init__ (more_files ("0006" +:+ newline +:+ " " +:+ newline)) None
  = Raise FileNotFoundError.
Proof.
  destruct (X10_blank_manifest_line_gives_empty_identifier_first
              (more_files ("0006" +:+ newline +:+ " " +:+ newline)) None
              ("0006" +:+ newline +:+ " " +:+ newline) (" " +:+ newline))
    as (_ & Hraise & _).
  - reflexivity.
  - vm_compute. right. left.
  - reflexivity.
  - apply Hraise. reflexivity.
Defined.

(** ** Identifiers carry no surrounding whitespace *)

Lemma chars_of_inj (s1 s2 : string) : chars_of s1 = chars_of s2 → s1 = s2.
Proof.
  unfold chars_of. intros Heq.
  rewrite <- (String.string_of_list_ascii_of_string s1),
          <- (String.string_of_list_ascii_of_string s2).
  by rewrite Heq.
Qed.

Lemma chars_of_rev_app (s acc : string) :
  chars_of (String.rev_app s acc) = reverse (chars_of s) ++ chars_of acc.
Proof.
  revert acc. induction s as [|a s IH]; intros acc; [done|].
  simpl. rewrite IH. unfold chars_of. simpl.
  by rewrite reverse_cons, <- app_assoc.
Qed.

Lemma chars_of_rev (s : string) : chars_of (String.rev s) = reverse (chars_of s).
Proof. unfold String.rev. rewrite chars_of_rev_app. apply app_nil_r. Qed.

Lemma string_rev_involutive (s : string) : String.rev (String.rev s) = s.
Proof.
  apply chars_of_inj. by rewrite !chars_of_rev, reverse_involutive.
Qed.

Lemma chars_of_lstrip (s : string) :
  chars_of (lstrip s) = lstrip_chars (chars_of s).
Proof.
  induction s as [|a s IH]; [done|].
  unfold chars_of in *. simpl. by destruct (py_isspace a).
Qed.

Lemma starts_with_space_chars (s : string) :
  starts_with_space s = head_is_space (chars_of s).
Proof. by destruct s. Qed.

Lemma chars_of_strip (s : string) :
  chars_of (strip s)
  = reverse (lstrip_chars (reverse (lstrip_chars (chars_of s)))).
Proof.
  unfold strip, rstrip.
  by rewrite chars_of_rev, chars_of_lstrip, chars_of_rev, chars_of_lstrip.
Qed.

Lemma lstrip_chars_head (l : list ascii) : head_is_space (lstrip_chars l) = false.
Proof.
  induction l as [|a l IH]; [done|]. simpl.
  destruct (py_isspace a) eqn:Ha; [exact IH | exact Ha].
Qed.

Lemma lstrip_chars_suffix (l : list ascii) : ∃ w, l = w ++ lstrip_chars l.
Proof.
  induction l as [|a l [w Hw]]; [by exists []|]. simpl.
  destruct (py_isspace a); [|by exists []].
  exists (a :: w). simpl. by rewrite <- Hw.
Qed.

(** What [rstrip] keeps of a string that does not start with whitespace
    does not start with whitespace either. *)
Lemma rstrip_chars_head (m : list ascii) :
  head_is_space m = false →
  head_is_space (reverse (lstrip_chars (reverse m))) = false.
Proof.
  intros Hm. destruct (lstrip_chars_suffix (reverse m)) as [w Hw].
  apply (f_equal reverse) in Hw. rewrite reverse_involutive, reverse_app in Hw.
  destruct (reverse (lstrip_chars (reverse m))) as [|c rest]; [done|].
  rewrite Hw in Hm. exact Hm.
Qed.

Lemma strip_no_surrounding_space (s : string) :
  starts_with_space (strip s) = false ∧ ends_with_space (strip s) = false.
Proof.
  unfold ends_with_space.
  rewrite !starts_with_space_chars, chars_of_rev, chars_of_strip. split.
  - apply rstrip_chars_head, lstrip_chars_head.
  - rewrite reverse_involutive. apply lstrip_chars_head.
Qed.

Lemma lstrip_fixed (s : string) : starts_with_space s = false → lstrip s = s.
Proof. destruct s as [|a s]; [done|]. simpl. by intros ->. Qed.

Lemma strip_fixed (s : string) :
  starts_with_space s = false → ends_with_space s = false → strip s = s.
Proof.
  intros Hstart Hend. unfold strip, rstrip. rewrite (lstrip_fixed s Hstart).
  unfold ends_with_space in Hend. rewrite (lstrip_fixed _ Hend).
  apply string_rev_involutive.
Qed.

(** X16: no identifier computed from a manifest starts or ends with
    whitespace (in particular none keeps the end of its line), and
    stripping an identifier again gives the identifier back. *)
Theorem X16_identifiers_have_no_surrounding_whitespace
    (content img_id : string) :
  img_id ∈ manifest_ids content →
  starts_with_space img_id = false
  ∧ ends_with_space img_id = false
  ∧ strip img_id = img_id.
Proof.
  unfold manifest_ids. rewrite sorted_Permutation.
  intros (line & -> & _)%list_elem_of_fmap.
  destruct (strip_no_surrounding_space line) as [Hstart Hend].
  split; [exact Hstart|]. split; [exact Hend|]. by apply strip_fixed.
Qed.

Lemma X16_identifiers_have_no_surrounding_whitespace_witness :
  strip "0002" = "0002".
Proof.
  apply (X16_identifiers_have_no_surrounding_whitespace
           (" 0002 " +:+ newline +:+ "0001")).
  apply (bool_decide_unpack _). vm_compute. exact I.
Defined.

(** ** A coordinate that does not fit 64 bits *)

(** The builder stores any integer, [get_img_info] is unaffected, and the
    sample accessor raises at [torch.as_tensor]. *)
Example getitem_coordinate_overflow :
  ∃ ds,
    __init__ overflow_files None = Ok ds
    ∧ (∃ ann, anns ds !! "0008" = Some ann
              ∧ ann_boxes ann = [[10; 20; 2 ^ 63; 40]])
    ∧ is_Ok (get_img_info ds 0)
    ∧ __getitem__ ds overflow_files 0 = Raise RuntimeError.
Proof.
  eexists. split; [vm_compute; reflexivity|].
  split; [eexists; split; vm_compute; reflexivity|].
  split; [eexists|]; vm_compute; reflexivity.
Qed.
